(** * PatchPilot: the scan-and-remediate pipeline

    A shallow embedding of [main.py] (the SAST orchestrator) and of
    [remote_LLM.py] (the remediation service), followed by the properties
    of the pipeline that the design document states about them.

    The programs are effectful: they log, spawn a scanner, read a file and
    talk HTTP.  The embedding threads an explicit [state] (the log and the
    trace of effects issued so far) through a small state-and-exception
    monad, and reads every answer of the outside world from an [env]
    record of oracles. *)

From Stdlib Require Import String Ascii List ZArith Lia Bool DecimalString Floats.
Import ListNotations.

Local Open Scope string_scope.
Local Open Scope Z_scope.

(** ** Python strings

    A Python [str] is modelled by a Rocq [string] whose characters are the
    code points below 256. *)

(** The code points below 256 for which [str.isspace] holds. *)
Definition is_space (c : ascii) : bool :=
  let n := nat_of_ascii c in
  (((9 <=? n) && (n <=? 13)) || ((28 <=? n) && (n <=? 32))
   || (n =? 133) || (n =? 160))%nat.

Fixpoint lstrip (s : string) : string :=
  match s with
  | EmptyString => EmptyString
  | String c s' => if is_space c then lstrip s' else s
  end.

Fixpoint rstrip (s : string) : string :=
  match s with
  | EmptyString => EmptyString
  | String c s' =>
      match rstrip s' with
      | EmptyString => if is_space c then EmptyString else String c EmptyString
      | r => String c r
      end
  end.

(** [s.strip()] *)
Definition strip (s : string) : string := rstrip (lstrip s).

(** [needle in s] on two strings: the substring test. *)
Fixpoint str_contains (needle s : string) : bool :=
  prefix needle s ||
  match s with
  | EmptyString => false
  | String _ s' => str_contains needle s'
  end.

(** [s[:n]] *)
Definition str_take (n : nat) (s : string) : string := substring 0 n s.

(** The characters of a string, each as a one-character string: what
    iterating over a [str] yields. *)
Fixpoint str_chars (s : string) : list string :=
  match s with
  | EmptyString => []
  | String c s' => String c EmptyString :: str_chars s'
  end.

(** [str(n)] for an [int]. *)
Definition str_of_int (n : Z) : string := NilZero.string_of_int (Z.to_int n).

(** [os.path.join(a, b)] on POSIX paths. *)
Definition ends_with_slash (a : string) : bool :=
  match get (String.length a - 1) a with
  | Some c => Ascii.eqb c "/"
  | None => false
  end.

Definition os_path_join (a b : string) : string :=
  if prefix "/" b then b
  else if (a =? "")%string || ends_with_slash a then a ++ b
  else a ++ "/" ++ b.

(** ** Python values

    The objects [json.load] and [response.json()] can return, which are all
    the objects the pipeline handles.  A [dict] keeps its items in order;
    lookup takes the first item with the key. *)

#[local] Set Warnings "-register-all".
Inductive value : Type :=
| PyNone
| PyBool (b : bool)
| PyInt (n : Z)
| PyFloat (x : float)
| PyStr (s : string)
| PyList (l : list value)
| PyDict (d : list (string * value)).
#[local] Set Warnings "register-all".

Definition type_name (v : value) : string :=
  match v with
  | PyNone => "NoneType"
  | PyBool _ => "bool"
  | PyInt _ => "int"
  | PyFloat _ => "float"
  | PyStr _ => "str"
  | PyList _ => "list"
  | PyDict _ => "dict"
  end.

(** [bool(v)]: the truth value used by [if v] and [v and ...]. *)
Definition truthy (v : value) : bool :=
  match v with
  | PyNone => false
  | PyBool b => b
  | PyInt n => negb (n =? 0)
  | PyFloat x => negb (PrimFloat.eqb x PrimFloat.zero)
  | PyStr s => negb (s =? "")%string
  | PyList l => match l with [] => false | _ => true end
  | PyDict d => match d with [] => false | _ => true end
  end.

Fixpoint lookup (k : string) (d : list (string * value)) : option value :=
  match d with
  | [] => None
  | (k', v) :: d' => if (k' =? k)%string then Some v else lookup k d'
  end.

Definition has_key (k : string) (d : list (string * value)) : bool :=
  match lookup k d with Some _ => true | None => false end.

(** ** Exceptions

    Only the classes the handlers of the two programs tell apart are kept
    apart; every exception of the model is an instance of [Exception]. *)

Inductive exn_class : Type :=
| GitCommandError
| FileNotFoundError
| AttributeError
| TypeError
| KeyError
| RequestException       (* requests' own family: connection, timeout, JSON decoding *)
| HTTPException (status : Z) (detail : string)
| OtherException.

Record exn : Type := { exn_cls : exn_class; exn_str : string }.

Definition is_GitCommandError (e : exn) : bool :=
  match exn_cls e with GitCommandError => true | _ => false end.

Definition is_FileNotFoundError (e : exn) : bool :=
  match exn_cls e with FileNotFoundError => true | _ => false end.

Definition is_RequestException (e : exn) : bool :=
  match exn_cls e with RequestException => true | _ => false end.

Inductive result (A : Type) : Type :=
| Ok (a : A)
| Raise (e : exn).
Arguments Ok {A} a.
Arguments Raise {A} e.

Definition attribute_error (v : value) (attr : string) : exn :=
  {| exn_cls := AttributeError;
     exn_str := "'" ++ type_name v ++ "' object has no attribute '" ++ attr ++ "'" |}.

Definition type_error (msg : string) : exn :=
  {| exn_cls := TypeError; exn_str := msg |}.

(** [v.get(key, default)]: a method of [dict] only. *)
Definition py_get (v : value) (key : string) (default : value) : result value :=
  match v with
  | PyDict d => Ok (match lookup key d with Some x => x | None => default end)
  | _ => Raise (attribute_error v "get")
  end.

(** [v.strip()]: a method of [str] only. *)
Definition py_strip (v : value) : result string :=
  match v with
  | PyStr s => Ok (strip s)
  | _ => Raise (attribute_error v "strip")
  end.

(** [key in v] for a string [key]. *)
Definition py_contains (key : string) (v : value) : result bool :=
  match v with
  | PyDict d => Ok (has_key key d)
  | PyList l =>
      Ok (existsb (fun x => match x with PyStr s => (s =? key)%string | _ => false end) l)
  | PyStr s => Ok (str_contains key s)
  | _ => Raise (type_error ("argument of type '" ++ type_name v ++ "' is not iterable"))
  end.

(** [v[key]] for a string [key]. *)
Definition py_getitem (v : value) (key : string) : result value :=
  match v with
  | PyDict d =>
      match lookup key d with
      | Some x => Ok x
      | None => Raise {| exn_cls := KeyError; exn_str := "'" ++ key ++ "'" |}
      end
  | PyList _ => Raise (type_error "list indices must be integers or slices, not str")
  | PyStr _ => Raise (type_error "string indices must be integers, not 'str'")
  | _ => Raise (type_error ("'" ++ type_name v ++ "' object is not subscriptable"))
  end.

(** The items a [for] loop over [v] visits. *)
Definition py_iter (v : value) : result (list value) :=
  match v with
  | PyList l => Ok l
  | PyDict d => Ok (map (fun kv => PyStr (fst kv)) d)
  | PyStr s => Ok (map PyStr (str_chars s))
  | _ => Raise (type_error ("'" ++ type_name v ++ "' object is not iterable"))
  end.

(** [len(v)] *)
Definition py_len (v : value) : result nat :=
  match v with
  | PyStr s => Ok (String.length s)
  | PyList l => Ok (List.length l)
  | PyDict d => Ok (List.length d)
  | _ => Raise (type_error ("object of type '" ++ type_name v ++ "' has no len()"))
  end.

(** [prompt + v] with a [str] on the left. *)
Definition py_str_add (s : string) (v : value) : result string :=
  match v with
  | PyStr t => Ok (s ++ t)
  | _ => Raise (type_error ("can only concatenate str (not " ++ String "034" (type_name v)
                              ++ String "034" ") to str"))
  end.

(** ** The outside world

    An HTTP request as [requests.post] receives it: the URL, the [json=]
    payload and the [timeout=] argument ([None] when it is not passed, in
    which case the call blocks for as long as the peer takes). *)

Record http_request : Type := {
  req_url : string;
  req_json : value;
  req_timeout : option Z
}.

(** An HTTP response as the programs observe it: [status_code], [text] and
    the outcome of [response.json()], which raises on a body that is not
    JSON. *)
Record response : Type := {
  status_code : Z;
  text : string;
  json : result value
}.

(** The answers of the environment.  [py_repr], [str_upper] and
    [format_2f] stand for library functions whose tables are not
    reproduced here ([str()] of floats and containers, Unicode upper-casing,
    the [:.2f] format); the others are the effects of the programs, each
    returning what the call returns or the exception it raises. *)
Record env : Type := {
  py_repr : value -> string;
  str_upper : string -> string;
  format_2f : float -> string;
  time_time : nat -> float;                       (* the n-th clock reading *)
  mkdtemp : string;                               (* tempfile.TemporaryDirectory() *)
  clone_from : string -> string -> result unit;   (* git.Repo.clone_from *)
  subprocess_run : list string -> result Z;       (* the child's return code *)
  path_exists : string -> bool;                   (* os.path.exists, after the child *)
  json_load_file : string -> result value;        (* open(path) and json.load *)
  requests_post : nat -> http_request -> result response
                                                  (* the n-th request.post of the run *)
}.

Inductive level : Type := INFO | WARNING | ERROR.

Record log_record : Type := { lvl : level; msg : string }.

(** What a run has done so far. *)
Record state : Type := {
  st_log : list log_record;           (* records emitted, oldest first *)
  st_clock : nat;                     (* clock readings taken *)
  st_clones : list (string * string); (* clone_from calls *)
  st_procs : list (list string);      (* child processes spawned, by argv *)
  st_http : list http_request         (* HTTP requests issued *)
}.

Definition initial_state : state :=
  {| st_log := []; st_clock := 0%nat; st_clones := []; st_procs := []; st_http := [] |}.

(** ** The state-and-exception monad *)

Definition M (A : Type) : Type := state -> state * result A.

Definition ret {A : Type} (a : A) : M A := fun st => (st, Ok a).

Definition bind {A B : Type} (m : M A) (k : A -> M B) : M B :=
  fun st =>
    match m st with
    | (st', Ok a) => k a st'
    | (st', Raise e) => (st', Raise e)
    end.

Definition raise {A : Type} (e : exn) : M A := fun st => (st, Raise e).

(** A pure Python operation that may raise. *)
Definition lift {A : Type} (r : result A) : M A := fun st => (st, r).

(** The [except] clauses of a [try], in order: the first clause whose class
    test accepts the exception runs, and what that clause raises is not
    offered to the clauses after it. *)
Definition handler (A : Type) : Type := ((exn -> bool) * (exn -> M A))%type.

Fixpoint dispatch {A : Type} (hs : list (handler A)) (e : exn) : M A :=
  match hs with
  | [] => raise e
  | (accepts, h) :: hs' => if accepts e then h e else dispatch hs' e
  end.

(** [try: m  except ...: ...] *)
Definition try_except {A : Type} (m : M A) (hs : list (handler A)) : M A :=
  fun st =>
    match m st with
    | (st', Ok a) => (st', Ok a)
    | (st', Raise e) => dispatch hs e st'
    end.

(** [except Exception as e] *)
Definition any_Exception (e : exn) : bool := true.

Declare Scope monad_scope.
Delimit Scope monad_scope with monad.
Notation "x <- m ;; k" := (bind m (fun x => k))
  (at level 61, m at next level, right associativity) : monad_scope.
Notation "m ;;; k" := (bind m (fun _ => k))
  (at level 61, right associativity) : monad_scope.
Local Open Scope monad_scope.

(** A [for] loop whose body may raise: the first exception ends the loop. *)
Fixpoint for_each {A : Type} (body : A -> M unit) (xs : list A) : M unit :=
  match xs with
  | [] => ret tt
  | x :: xs' => body x ;;; for_each body xs'
  end.

Definition logging (l : level) (m : string) : M unit :=
  fun st =>
    ({| st_log := st_log st ++ [ {| lvl := l; msg := m |} ];
        st_clock := st_clock st;
        st_clones := st_clones st;
        st_procs := st_procs st;
        st_http := st_http st |}, Ok tt).

Definition logging_info : string -> M unit := logging INFO.
Definition logging_error : string -> M unit := logging ERROR.

Section Effects.
Variable E : env.

(** [time.time()] *)
Definition time_now : M float :=
  fun st =>
    ({| st_log := st_log st;
        st_clock := S (st_clock st);
        st_clones := st_clones st;
        st_procs := st_procs st;
        st_http := st_http st |}, Ok (time_time E (st_clock st))).

(** [git.Repo.clone_from(repo_url, temp_dir)] *)
Definition git_clone_from (repo_url temp_dir : string) : M unit :=
  fun st =>
    ({| st_log := st_log st;
        st_clock := st_clock st;
        st_clones := st_clones st ++ [(repo_url, temp_dir)];
        st_procs := st_procs st;
        st_http := st_http st |}, clone_from E repo_url temp_dir).

(** [subprocess.run(argv, capture_output=True, text=True, check=False)]:
    with [check=False] a non-zero return code raises nothing. *)
Definition run_process (argv : list string) : M Z :=
  fun st =>
    ({| st_log := st_log st;
        st_clock := st_clock st;
        st_clones := st_clones st;
        st_procs := st_procs st ++ [argv];
        st_http := st_http st |}, subprocess_run E argv).

(** [requests.post(url, json=payload, timeout=t)] *)
Definition http_post (rq : http_request) : M response :=
  fun st =>
    ({| st_log := st_log st;
        st_clock := st_clock st;
        st_clones := st_clones st;
        st_procs := st_procs st;
        st_http := st_http st ++ [rq] |},
     requests_post E (List.length (st_http st)) rq).

(** [str(v)], as an f-string renders [{v}]. *)
Definition py_str (v : value) : string :=
  match v with
  | PyNone => "None"
  | PyBool true => "True"
  | PyBool false => "False"
  | PyInt n => str_of_int n
  | PyStr s => s
  | PyFloat _ | PyList _ | PyDict _ => py_repr E v
  end.
End Effects.

(** ** main.py *)

Definition nl : string := String "010" EmptyString.

Fixpoint assoc {A : Type} (k : string) (l : list (string * A)) : option A :=
  match l with
  | [] => None
  | (k', a) :: l' => if (k' =? k)%string then Some a else assoc k l'
  end.

Record arguments : Type := { repo_url : string; tool : string }.

(** How the interpreter ends after running the script's [main()]: status 0
    when it returns, status 1 when an exception leaves it. *)
Definition exit_status {A : Type} (r : result A) : Z :=
  match r with
  | Ok _ => 0
  | Raise _ => 1
  end.

Section Main.
Variable E : env.

Definition REMOTE_MODEL_URL : string := "http://192.168.1.13:9000/generate".

Definition clone_repo (repo_url temp_dir : string) : M bool :=
  logging_info ("Cloning repository: " ++ repo_url ++ " into " ++ temp_dir) ;;;
  try_except
    (git_clone_from E repo_url temp_dir ;;;
     logging_info "Cloning successful." ;;;
     ret true)
    [ (is_GitCommandError,
       fun e => logging_error ("Error cloning repository: " ++ exn_str e) ;;;
                ret false) ].

Definition commands (repo_path output_file : string) : list (string * list string) :=
  [ ("bandit", ["bandit"; "-r"; repo_path; "-f"; "json"; "-o"; output_file]);
    ("semgrep", ["semgrep"; "--config=auto"; "--json"; "-o"; output_file; repo_path]) ].

(** The [try] block yields [Some v] when it reaches [return json.load(f)]
    and [None] when control falls through to the final [return None]. *)
Definition run_sast_tool (tool_name repo_path output_file : string) : M value :=
  logging_info ("Running " ++ tool_name ++ " on: " ++ repo_path) ;;;
  match assoc tool_name (commands repo_path output_file) with
  | None =>
      logging_error ("Unsupported SAST tool: " ++ tool_name) ;;;
      ret PyNone
  | Some argv =>
      returned <-
        try_except
          (start_time <- time_now E ;;
           _ <- run_process E argv ;;
           end_time <- time_now E ;;
           let elapsed_time := PrimFloat.sub end_time start_time in
           logging_info (tool_name ++ " scan completed in "
                           ++ format_2f E elapsed_time ++ " seconds.") ;;;
           if path_exists E output_file then
             v <- lift (json_load_file E output_file) ;;
             ret (Some v)
           else ret None)
          [ (is_FileNotFoundError,
             fun _ => logging_error ("Error: '" ++ tool_name
                                       ++ "' not found. Install it before running.") ;;;
                      ret None);
            (any_Exception,
             fun e => logging_error ("Error running " ++ tool_name ++ ": " ++ exn_str e) ;;;
                      ret None) ] ;;
      match returned with
      | Some v => ret v
      | None => ret PyNone
      end
  end.

(** The f-string of lines 88-92. *)
Definition build_prompt (finding : value) : result string :=
  match py_get finding "issue_text" (PyStr "N/A"),
        py_get finding "filename" (PyStr "N/A"),
        py_get finding "line_number" (PyStr "N/A") with
  | Ok issue_text, Ok filename, Ok line_number =>
      Ok ("Given this security finding: " ++ py_str E issue_text ++ " "
          ++ "in file " ++ py_str E filename ++ " at line " ++ py_str E line_number ++ ", "
          ++ "generate a concise and correct security fix. Keep the response under 100 words.")
  | Raise e, _, _ => Raise e
  | _, Raise e, _ => Raise e
  | _, _, Raise e => Raise e
  end.

(** Returns [Some s] for the string [s], [None] for Python's [None]. *)
Definition get_llm_suggestion (finding : value) : M (option string) :=
  try_except
    (prompt <- lift (build_prompt finding) ;;
     start_time <- time_now E ;;
     response <- http_post E {| req_url := REMOTE_MODEL_URL;
                                req_json := PyDict [("prompt", PyStr prompt)];
                                req_timeout := None |} ;;
     end_time <- time_now E ;;
     let elapsed_time := PrimFloat.sub end_time start_time in
     if status_code response =? 200 then
       body <- lift (json response) ;;
       generated_text <- lift (py_get body "generated_text" (PyStr "")) ;;
       suggestion <- lift (py_strip generated_text) ;;
       logging_info ("LLM suggestion generated in "
                       ++ format_2f E elapsed_time ++ " seconds.") ;;;
       ret (Some suggestion)
     else
       logging_error ("Error: " ++ str_of_int (status_code response)
                        ++ ", " ++ text response) ;;;
       ret None)
    [ (any_Exception,
       fun e => logging_error ("Error getting LLM suggestion: " ++ exn_str e) ;;;
                ret None) ].

(** [suggestion.strip() if suggestion else 'No suggestion available.'] *)
Definition suggestion_text (suggestion : option string) : string :=
  match suggestion with
  | Some s => if negb (s =? "")%string then strip s else "No suggestion available."
  | None => "No suggestion available."
  end.

(** The body of the loop of [print_results]. *)
Definition print_finding (finding : value) : M unit :=
  severity <- lift (py_get finding "issue_severity" (PyStr "N/A")) ;;
  logging_info ("Severity: " ++ py_str E severity) ;;;
  issue_text <- lift (py_get finding "issue_text" (PyStr "N/A")) ;;
  logging_info ("Issue: " ++ py_str E issue_text) ;;;
  filename <- lift (py_get finding "filename" (PyStr "N/A")) ;;
  line_number <- lift (py_get finding "line_number" (PyStr "N/A")) ;;
  logging_info ("File: " ++ py_str E filename ++ ":" ++ py_str E line_number) ;;;
  suggestion <- get_llm_suggestion finding ;;
  logging_info ("Suggestion: " ++ suggestion_text suggestion ++ nl).

Definition print_results (tool_name : string) (results : value) : M unit :=
  has_results <- (if truthy results then lift (py_contains "results" results)
                  else ret false) ;;
  if has_results : bool then
    logging_info (nl ++ "--- " ++ str_upper E tool_name
                    ++ " Scan Results with LLM Suggestions ---") ;;;
    items <- lift (py_getitem results "results") ;;
    findings <- lift (py_iter items) ;;
    for_each print_finding findings
  else
    logging_info ("No results from " ++ tool_name ++ ".").

(** [main] from line 131 on: what runs once [parser.parse_args()] has
    returned [args].  The whole function, parsing included, is [main_cli]
    below. *)
Definition main (args : arguments) : M unit :=
  let temp_dir := mkdtemp E in
  cloned <- clone_repo (repo_url args) temp_dir ;;
  if negb cloned then ret tt
  else
    let output_file := os_path_join temp_dir "sast_results.json" in
    results <- run_sast_tool (tool args) temp_dir output_file ;;
    if truthy results then print_results (tool args) results
    else logging_info (nl ++ "No security findings detected.").
End Main.





Section CommandLine.
Variable E : env.

End CommandLine.

(** ** remote_LLM.py *)

Record GenerateRequest : Type := {
  prompt : string;
  model : string;
  max_length : Z;
  temperature : float
}.

(** A request that gives only the prompt takes the defaults of the class. *)
Definition GenerateRequest_default (p : string) : GenerateRequest :=
  {| prompt := p; model := "llama2"; max_length := 750;
     temperature := 0x1.6666666666666p-1%float (* 0.7 *) |}.

(** [HTTPException(status_code=status, detail=detail)]; its [str()] is
    Starlette's ["<status>: <detail>"]. *)
Definition http_exception (status : Z) (detail : string) : exn :=
  {| exn_cls := HTTPException status detail;
     exn_str := str_of_int status ++ ": " ++ detail |}.

Definition logging_warning : string -> M unit := logging WARNING.

Section RemoteLLM.
Variable E : env.

Definition OLLAMA_API_URL : string := "http://192.168.1.13:11434/api/generate".
Definition OLLAMA_TIMEOUT : Z := 300.

(** The handler of [POST /generate].  It returns the body of the 200
    reply or raises the [HTTPException] the framework turns into an
    error reply. *)
Definition generate_text (request : GenerateRequest) : M value :=
  let prompt := prompt request in
  logging_info ("Received prompt: " ++ str_take 100 prompt ++ "...") ;;;
  try_except
    (let ollama_payload :=
       PyDict [ ("prompt", PyStr prompt);
                ("model", PyStr (model request));
                ("options", PyDict [ ("temperature", PyFloat (temperature request));
                                     ("num_predict", PyInt (max_length request)) ]) ] in
     response <- http_post E {| req_url := OLLAMA_API_URL;
                                req_json := ollama_payload;
                                req_timeout := Some OLLAMA_TIMEOUT |} ;;
     (if negb (status_code response =? 200) then
        logging_error ("Ollama API error: " ++ str_of_int (status_code response)
                         ++ " - " ++ text response) ;;;
        raise (http_exception 500 "Error communicating with Ollama API")
      else ret tt) ;;;
     response_data <- lift (json response) ;;
     generated_text <- lift (py_get response_data "response" (PyStr "")) ;;
     n <- lift (py_len generated_text) ;;
     logging_info ("Generated response of length " ++ str_of_int (Z.of_nat n)) ;;;
     full <- lift (py_str_add prompt generated_text) ;;
     ret (PyDict [("generated_text", PyStr full)]))
    [ (is_RequestException,
       fun e => logging_error ("Error connecting to Ollama: " ++ exn_str e) ;;;
                raise (http_exception 503 "Ollama service unavailable"));
      (any_Exception,
       fun e => logging_error ("Unexpected error in generate_text: " ++ exn_str e) ;;;
                raise (http_exception 500 ("Internal server error: " ++ exn_str e))) ].
End RemoteLLM.

(** [GET /] *)
Definition hello : string := "hello".

(** What the start-up hook of the service reads from its surroundings: the
    formatted UTC time, the argument vector of the process and the answer
    to its [requests.get] probe (or the exception the probe raises). *)
Record probe : Type := {
  utcnow : string;                         (* datetime.utcnow().strftime(...) *)
  sys_argv : list string;
  requests_get : string -> result response
}.

(** [[f(x) for x in xs]] where [f] may raise: the first exception ends the
    comprehension. *)
Fixpoint comprehension {A B : Type} (f : A -> result B) (xs : list A) : result (list B) :=
  match xs with
  | [] => Ok []
  | x :: xs' =>
      match f x with
      | Raise e => Raise e
      | Ok y =>
          match comprehension f xs' with
          | Raise e => Raise e
          | Ok ys => Ok (y :: ys)
          end
      end
  end.

Section Startup.
Variable E : env.
Variable P : probe.

Definition OLLAMA_TAGS_URL : string := "http://192.168.1.13:11434/api/tags".

(** [[m.get('name') for m in models]] *)
Definition model_names (models : value) : result (list value) :=
  match py_iter models with
  | Raise e => Raise e
  | Ok ms => comprehension (fun m => py_get m "name" PyNone) ms
  end.

Definition startup_event : M unit :=
  logging_info ("Starting up application at " ++ utcnow P ++ " UTC") ;;;
  logging_info ("User: " ++ match sys_argv P with
                            | a :: _ => a
                            | [] => "unknown"
                            end) ;;;
  try_except
    (models_response <- lift (requests_get P OLLAMA_TAGS_URL) ;;
     if status_code models_response =? 200 then
       body <- lift (json models_response) ;;
       models <- lift (py_get body "models" (PyList [])) ;;
       names <- lift (model_names models) ;;
       logging_info ("Connected to Ollama. Available models: " ++ py_str E (PyList names))
     else
       logging_warning ("Ollama responded with status code "
                          ++ str_of_int (status_code models_response)))
    [ (is_RequestException,
       fun e => logging_warning ("Could not connect to Ollama: " ++ exn_str e) ;;;
                logging_warning "Make sure Ollama is running on 192.168.1.13:11434") ].
End Startup.

(** ** Vocabulary of the properties *)

Definition dict : Type := list (string * value).

Definition info (m : string) : log_record := {| lvl := INFO; msg := m |}.
Definition error (m : string) : log_record := {| lvl := ERROR; msg := m |}.

Section Vocabulary.
Variable E : env.

(** The text an f-string shows for [d.get(k, 'N/A')]. *)
Definition slot (d : dict) (k : string) : string :=
  match lookup k d with
  | Some v => py_str E v
  | None => "N/A"
  end.

Definition prompt_template (message file_path line_number : string) : string :=
  "Given this security finding: " ++ message ++ " in file " ++ file_path
    ++ " at line " ++ line_number
    ++ ", generate a concise and correct security fix. Keep the response under 100 words.".

Definition prompt_of (d : dict) : string :=
  prompt_template (slot d "issue_text") (slot d "filename") (slot d "line_number").

(** The one request a finding causes. *)
Definition request_of (d : dict) : http_request :=
  {| req_url := REMOTE_MODEL_URL;
     req_json := PyDict [("prompt", PyStr (prompt_of d))];
     req_timeout := None |}.

(** What the answer to a finding's request makes of its suggestion. *)
Definition response_suggestion (r : result response) : option string :=
  match r with
  | Raise _ => None
  | Ok resp =>
      if status_code resp =? 200 then
        match json resp with
        | Ok (PyDict body) =>
            match lookup "generated_text" body with
            | None => Some EmptyString
            | Some (PyStr s) => Some (strip s)
            | Some _ => None
            end
        | _ => None
        end
      else None
  end.

(** A failed remediation request: a transport exception, a status
    outside 200-299, or a 200 reply whose body is malformed (not JSON,
    not an object, or with a [generated_text] that is not a string). *)
Definition remediation_failed (r : result response) : bool :=
  match r with
  | Raise _ => true
  | Ok resp =>
      if (status_code resp <? 200) || (299 <? status_code resp) then true
      else if status_code resp =? 200 then
        match json resp with
        | Ok (PyDict body) =>
            match lookup "generated_text" body with
            | None | Some (PyStr _) => false
            | Some _ => true
            end
        | _ => true
        end
      else false
  end.

(** The record the suggestion call logs about the answer [r], when the
    call starts at clock reading [c]. *)
Definition call_record (c : nat) (r : result response) : log_record :=
  let failed (e : exn) := error ("Error getting LLM suggestion: " ++ exn_str e) in
  match r with
  | Raise e => failed e
  | Ok resp =>
      if status_code resp =? 200 then
        match json resp with
        | Raise e => failed e
        | Ok body =>
            match py_get body "generated_text" (PyStr "") with
            | Raise e => failed e
            | Ok g =>
                match py_strip g with
                | Raise e => failed e
                | Ok _ =>
                    info ("LLM suggestion generated in "
                            ++ format_2f E (PrimFloat.sub (time_time E (S c)) (time_time E c))
                            ++ " seconds.")
                end
            end
        end
      else error ("Error: " ++ str_of_int (status_code resp) ++ ", " ++ text resp)
  end.

Definition unavailable_line : log_record :=
  info ("Suggestion: No suggestion available." ++ nl).

Definition suggestion_line (n : nat) (d : dict) : log_record :=
  info ("Suggestion: "
          ++ suggestion_text (response_suggestion (requests_post E n (request_of d)))
          ++ nl).

(** The records of one report entry: the finding [d], answered by the
    [n]-th request of the run; [call] is the record the suggestion call
    itself logs. *)
Definition entry_records (n : nat) (d : dict) (call : log_record) : list log_record :=
  [ info ("Severity: " ++ slot d "issue_severity");
    info ("Issue: " ++ slot d "issue_text");
    info ("File: " ++ slot d "filename" ++ ":" ++ slot d "line_number");
    call;
    suggestion_line n d ].

Fixpoint report_blocks (n : nat) (ds : list dict) (calls : list log_record)
  : list (list log_record) :=
  match ds, calls with
  | d :: ds', c :: calls' => entry_records n d c :: report_blocks (S n) ds' calls'
  | _, _ => []
  end.

Definition report_header (tool_name : string) : log_record :=
  info (nl ++ "--- " ++ str_upper E tool_name ++ " Scan Results with LLM Suggestions ---").
End Vocabulary.

(** *** Scan results *)

Fixpoint all_dicts (l : list value) : option (list dict) :=
  match l with
  | [] => Some []
  | PyDict d :: l' =>
      match all_dicts l' with
      | Some ds => Some (d :: ds)
      | None => None
      end
  | _ :: _ => None
  end.

(** The findings of a scan result: the objects listed under its ["results"]
    key, as both Bandit and Semgrep lay their reports out. *)
Definition scan_findings (results : value) : option (list dict) :=
  match results with
  | PyDict rs =>
      match lookup "results" rs with
      | Some (PyList l) => all_dicts l
      | _ => None
      end
  | _ => None
  end.

(** The situations a scan can end in, under the names the design gives
    them; [SpawnError] is a spawn that raised anything else than
    [FileNotFoundError], which the design does not name. *)
Inductive scan_outcome : Type :=
| Scanned (results : value)
| UnsupportedToolError
| ToolNotFoundError
| SpawnError (e : exn)
| ScanOutputError.


Section ScanVocabulary.
Variable E : env.

(** What the artifact at [output_file] holds for the caller: its decoded
    content, or [None] when it is missing or does not decode. *)
Definition artifact_value (output_file : string) : value :=
  if path_exists E output_file then
    match json_load_file E output_file with
    | Ok v => v
    | Raise _ => PyNone
    end
  else PyNone.

Definition scan_outcome_of (tool_name repo_path output_file : string) : scan_outcome :=
  match assoc tool_name (commands repo_path output_file) with
  | None => UnsupportedToolError
  | Some argv =>
      match subprocess_run E argv with
      | Raise e => if is_FileNotFoundError e then ToolNotFoundError else SpawnError e
      | Ok _ =>
          if path_exists E output_file then
            match json_load_file E output_file with
            | Ok v => Scanned v
            | Raise _ => ScanOutputError
            end
          else ScanOutputError
      end
  end.

Definition running_record (tool_name repo_path : string) : log_record :=
  info ("Running " ++ tool_name ++ " on: " ++ repo_path).

Definition not_found_record (tool_name : string) : log_record :=
  error ("Error: '" ++ tool_name ++ "' not found. Install it before running.").

Definition error_running_record (tool_name : string) (e : exn) : log_record :=
  error ("Error running " ++ tool_name ++ ": " ++ exn_str e).

(** The record of the scan's duration, timed by clock readings [c] and
    [c + 1]. *)
Definition completed_record (tool_name : string) (c : nat) : log_record :=
  info (tool_name ++ " scan completed in "
          ++ format_2f E (PrimFloat.sub (time_time E (S c)) (time_time E c))
          ++ " seconds.").

Definition handled_record (tool_name : string) (e : exn) : log_record :=
  if is_FileNotFoundError e then not_found_record tool_name
  else error_running_record tool_name e.

(** The records [run_sast_tool] logs, when it starts at clock reading [c]. *)
Definition scan_log (tool_name repo_path output_file : string) (c : nat)
  : list log_record :=
  running_record tool_name repo_path ::
  match assoc tool_name (commands repo_path output_file) with
  | None => [ error ("Unsupported SAST tool: " ++ tool_name) ]
  | Some argv =>
      match subprocess_run E argv with
      | Raise e => [ handled_record tool_name e ]
      | Ok _ =>
          completed_record tool_name c ::
          (if path_exists E output_file then
             match json_load_file E output_file with
             | Ok _ => []
             | Raise e => [ handled_record tool_name e ]
             end
           else [])
      end
  end.

Definition cloning_record (repo_url temp_dir : string) : log_record :=
  info ("Cloning repository: " ++ repo_url ++ " into " ++ temp_dir).


(** The path [main] hands to the scanner. *)
Definition output_path : string := os_path_join (mkdtemp E) "sast_results.json".
End ScanVocabulary.

(** The value [run_sast_tool] hands to its caller in each situation. *)
Definition returned_value (o : scan_outcome) : value :=
  match o with
  | Scanned v => v
  | _ => PyNone
  end.

(** The child processes a scan spawns. *)
Definition spawned (tool_name repo_path output_file : string) : list (list string) :=
  match assoc tool_name (commands repo_path output_file) with
  | Some argv => [argv]
  | None => []
  end.

(** ** Sample runs

    A concrete environment in which the sample scenario of the design runs:
    Bandit reports one finding and exits with status 1, and the
    remediation service answers every request with a suggestion.  The
    other environments change one answer each. *)

Definition upper_ascii_char (c : ascii) : ascii :=
  let n := nat_of_ascii c in
  if ((97 <=? n) && (n <=? 122))%nat then ascii_of_nat (n - 32) else c.

Fixpoint upper_ascii (s : string) : string :=
  match s with
  | EmptyString => EmptyString
  | String c s' => String (upper_ascii_char c) (upper_ascii s')
  end.

Definition sample_finding : dict :=
  [ ("issue_severity", PyStr "HIGH");
    ("issue_text", PyStr "hardcoded password");
    ("filename", PyStr "app.py");
    ("line_number", PyInt 42) ].

(** A file-level finding: it has no line number. *)
Definition file_level_finding : dict :=
  [ ("issue_severity", PyStr "LOW");
    ("issue_text", PyStr "world-writable file");
    ("filename", PyStr "deploy.sh") ].

Definition sample_report : value :=
  PyDict [ ("errors", PyList []);
           ("results", PyList [PyDict sample_finding; PyDict file_level_finding]) ].

Definition empty_report : value :=
  PyDict [ ("errors", PyList []); ("results", PyList []) ].

Definition suggestion_reply : response :=
  {| status_code := 200;
     text := "{" ++ String "034" ("generated_text" ++ String "034"
               (": " ++ String "034" ("Use environment variables." ++ String "034" "}")));
     json := Ok (PyDict [("generated_text", PyStr "Use environment variables.")]) |}.

Definition unavailable_reply : response :=
  {| status_code := 503;
     text := "Service Unavailable";
     json := Raise {| exn_cls := RequestException; exn_str := "Expecting value" |} |}.

(** A 200 reply whose JSON object has no ["generated_text"]. *)
Definition empty_reply : response :=
  {| status_code := 200; text := "{}"; json := Ok (PyDict []) |}.

Definition connection_refused : exn :=
  {| exn_cls := RequestException; exn_str := "Connection refused" |}.

Definition sample_env : env :=
  {| py_repr := fun _ => "<repr>";
     str_upper := upper_ascii;
     format_2f := fun _ => "0.00";
     time_time := fun _ => PrimFloat.zero;
     mkdtemp := "/tmp/tmpk3s9";
     clone_from := fun _ _ => Ok tt;
     subprocess_run := fun _ => Ok 1;
     path_exists := fun _ => true;
     json_load_file := fun _ => Ok sample_report;
     requests_post := fun _ _ => Ok suggestion_reply |}.

Definition with_requests_post (E : env) (post : nat -> http_request -> result response)
  : env :=
  {| py_repr := py_repr E; str_upper := str_upper E; format_2f := format_2f E;
     time_time := time_time E; mkdtemp := mkdtemp E; clone_from := clone_from E;
     subprocess_run := subprocess_run E; path_exists := path_exists E;
     json_load_file := json_load_file E; requests_post := post |}.

Definition with_clone_from (E : env) (clone : string -> string -> result unit) : env :=
  {| py_repr := py_repr E; str_upper := str_upper E; format_2f := format_2f E;
     time_time := time_time E; mkdtemp := mkdtemp E; clone_from := clone;
     subprocess_run := subprocess_run E; path_exists := path_exists E;
     json_load_file := json_load_file E; requests_post := requests_post E |}.

Definition with_subprocess_run (E : env) (run : list string -> result Z) : env :=
  {| py_repr := py_repr E; str_upper := str_upper E; format_2f := format_2f E;
     time_time := time_time E; mkdtemp := mkdtemp E; clone_from := clone_from E;
     subprocess_run := run; path_exists := path_exists E;
     json_load_file := json_load_file E; requests_post := requests_post E |}.

Definition with_artifact (E : env) (present : bool) (content : result value) : env :=
  {| py_repr := py_repr E; str_upper := str_upper E; format_2f := format_2f E;
     time_time := time_time E; mkdtemp := mkdtemp E; clone_from := clone_from E;
     subprocess_run := subprocess_run E; path_exists := fun _ => present;
     json_load_file := fun _ => content; requests_post := requests_post E |}.

(** The remediation service is down: every request gets a 503. *)
Definition service_down_env : env :=
  with_requests_post sample_env (fun _ _ => Ok unavailable_reply).

(** The first request is refused at the transport level, the others are
    answered. *)
Definition first_call_refused_env : env :=
  with_requests_post sample_env
    (fun n _ => match n with O => Raise connection_refused | _ => Ok suggestion_reply end).

Definition empty_reply_env : env :=
  with_requests_post sample_env (fun _ _ => Ok empty_reply).

(** The remote host of the repository does not exist. *)
Definition clone_fails_env : env :=
  with_clone_from sample_env
    (fun _ _ => Raise {| exn_cls := GitCommandError;
                         exn_str := "Cmd('git') failed due to: exit code(128)" |}).

(** Bandit is not installed. *)
Definition tool_missing_env : env :=
  with_artifact
    (with_subprocess_run sample_env
       (fun _ => Raise {| exn_cls := FileNotFoundError;
                          exn_str := "[Errno 2] No such file or directory: 'bandit'" |}))
    false (Raise {| exn_cls := FileNotFoundError; exn_str := "[Errno 2]" |}).

(** Bandit runs and exits with status 0 but writes no report. *)
Definition artifact_missing_env : env :=
  with_artifact (with_subprocess_run sample_env (fun _ => Ok 0))
    false (Raise {| exn_cls := FileNotFoundError; exn_str := "[Errno 2]" |}).

(** Bandit writes a report that is not JSON. *)
Definition artifact_garbled_env : env :=
  with_artifact (with_subprocess_run sample_env (fun _ => Ok 0))
    true (Raise {| exn_cls := OtherException;
                   exn_str := "Expecting value: line 1 column 1 (char 0)" |}).

(** Bandit finds nothing in a clean repository: exit status 0 and a report
    with an empty ["results"] list. *)
Definition clean_repo_env : env :=
  with_artifact (with_subprocess_run sample_env (fun _ => Ok 0)) true (Ok empty_report).

Definition sample_args : arguments :=
  {| repo_url := "https://example.org/acme/app.git"; tool := "bandit" |}.



(** The model runtime behind the remediation service answers with a
    continuation. *)
Definition ollama_reply : response :=
  {| status_code := 200;
     text := "...";
     json := Ok (PyDict [ ("model", PyStr "llama2");
                          ("response", PyStr " Read the secret from the environment.");
                          ("done", PyBool true) ]) |}.

Definition ollama_env : env := with_requests_post sample_env (fun _ _ => Ok ollama_reply).

(** *** The remediation service *)

(** The request [generate_text] sends to the model runtime. *)
Definition ollama_request (request : GenerateRequest) : http_request :=
  {| req_url := OLLAMA_API_URL;
     req_json :=
       PyDict [ ("prompt", PyStr (prompt request));
                ("model", PyStr (model request));
                ("options", PyDict [ ("temperature", PyFloat (temperature request));
                                     ("num_predict", PyInt (max_length request)) ]) ];
     req_timeout := Some OLLAMA_TIMEOUT |}.

(** *** Further sample data *)

Definition warning (m : string) : log_record := {| lvl := WARNING; msg := m |}.

(** A finding as Semgrep lays it out: none of the keys the report reads. *)
Definition semgrep_finding : dict :=
  [ ("check_id", PyStr "python.lang.security.audit.eval-detected");
    ("path", PyStr "app.py");
    ("start", PyDict [("line", PyInt 7); ("col", PyInt 1)]);
    ("extra", PyDict [("message", PyStr "Detected eval"); ("severity", PyStr "WARNING")]) ].

(** A report whose second item is not an object. *)
Definition malformed_report : value :=
  PyDict [ ("results", PyList [PyDict sample_finding; PyStr "oops";
                               PyDict file_level_finding]) ].

(** A 201 reply that carries a well-formed suggestion. *)
Definition created_reply : response :=
  {| status_code := 201;
     text := "created";
     json := Ok (PyDict [("generated_text", PyStr "Use environment variables.")]) |}.

(** A 200 reply whose suggestion is padded with white space. *)
Definition padded_reply : response :=
  {| status_code := 200;
     text := "...";
     json := Ok (PyDict [("generated_text",
                          PyStr ("  Use a vault." ++ nl))]) |}.

Definition created_reply_env : env :=
  with_requests_post sample_env (fun _ _ => Ok created_reply).

Definition padded_reply_env : env :=
  with_requests_post sample_env (fun _ _ => Ok padded_reply).

(** The scanner writes an empty JSON object. *)
Definition empty_object_env : env :=
  with_artifact (with_subprocess_run sample_env (fun _ => Ok 0)) true (Ok (PyDict [])).

(** The scanner cannot be executed, while a report from elsewhere lies at
    the output path. *)
Definition permission_denied : exn :=
  {| exn_cls := OtherException; exn_str := "[Errno 13] Permission denied: 'bandit'" |}.

Definition spawn_denied_env : env :=
  with_subprocess_run sample_env (fun _ => Raise permission_denied).

(** The report is there when its existence is tested and gone when it is
    opened. *)
Definition artifact_vanishes_env : env :=
  with_artifact (with_subprocess_run sample_env (fun _ => Ok 0)) true
    (Raise {| exn_cls := FileNotFoundError;
              exn_str := "[Errno 2] No such file or directory" |}).

Definition malformed_report_env : env :=
  with_artifact sample_env true (Ok malformed_report).

(** The model runtime answers with an error status. *)
Definition ollama_error_reply : response :=
  {| status_code := 404;
     text := "model not found";
     json := Ok (PyDict [("error", PyStr "model not found")]) |}.

Definition ollama_error_env : env :=
  with_requests_post sample_env (fun _ _ => Ok ollama_error_reply).

Definition ollama_down_env : env :=
  with_requests_post sample_env (fun _ _ => Raise connection_refused).

(** The model runtime answers with a [response] that is a list. *)
Definition ollama_list_reply : response :=
  {| status_code := 200;
     text := "...";
     json := Ok (PyDict [("response", PyList [PyStr "a"; PyStr "b"])]) |}.

Definition ollama_list_env : env :=
  with_requests_post sample_env (fun _ _ => Ok ollama_list_reply).

Definition tags_reply : response :=
  {| status_code := 200;
     text := "...";
     json := Ok (PyDict [("models", PyList [PyDict [("name", PyStr "llama2:latest")];
                                            PyDict [("size", PyInt 3)]])]) |}.

(** The probe finds the runtime and its models. *)
Definition probe_up : probe :=
  {| utcnow := "2025-03-01 09:00:00";
     sys_argv := ["remote_LLM.py"];
     requests_get := fun _ => Ok tags_reply |}.

(** The probe finds nobody listening. *)
Definition probe_down : probe :=
  {| utcnow := "2025-03-01 09:00:00";
     sys_argv := ["remote_LLM.py"];
     requests_get := fun _ => Raise connection_refused |}.

(** The probe is answered 200 with a JSON array instead of an object. *)
Definition probe_array : probe :=
  {| utcnow := "2025-03-01 09:00:00";
     sys_argv := [];
     requests_get := fun _ => Ok {| status_code := 200; text := "[]"; json := Ok (PyList []) |} |}.

(** The two records every start-up begins with. *)
Definition startup_records (P : probe) : list log_record :=
  [ info ("Starting up application at " ++ utcnow P ++ " UTC");
    info ("User: " ++ match sys_argv P with a :: _ => a | [] => "unknown" end) ].

(** ** Running the monad *)

Ltac run :=
  cbv [bind ret raise lift try_except dispatch any_Exception logging_info logging_error
       logging_warning logging time_now http_post git_clone_from run_process];
  cbn [st_log st_clock st_clones st_procs st_http fst snd].

Lemma build_prompt_dict (E : env) (d : dict) :
  build_prompt E (PyDict d) = Ok (prompt_of E d).
Proof.
  unfold build_prompt, prompt_of, prompt_template, slot, py_get.
  destruct (lookup "issue_text" d), (lookup "filename" d), (lookup "line_number" d);
    reflexivity.
Qed.

Lemma get_llm_suggestion_dict (E : env) (d : dict) (st : state) :
  let r := requests_post E (List.length (st_http st)) (request_of E d) in
  exists st',
    get_llm_suggestion E (PyDict d) st = (st', Ok (response_suggestion r))
    /\ st_log st' = (st_log st ++ [call_record E (st_clock st) r])%list
    /\ st_http st' = (st_http st ++ [request_of E d])%list
    /\ st_procs st' = st_procs st
    /\ st_clones st' = st_clones st.
Proof.
  unfold get_llm_suggestion. rewrite build_prompt_dict. run.
  fold (request_of E d).
  destruct (requests_post E (List.length (st_http st)) (request_of E d)) as [resp|e] eqn:Hpost;
    cbn [response_suggestion call_record].
  - destruct (status_code resp =? 200) eqn:Hs.
    + destruct (json resp) as [body|e].
      * destruct body as [ | | | | | |b]; cbn [py_get];
          try (eexists; repeat split; cbn; reflexivity).
        destruct (lookup "generated_text" b) as [g|]; cbn [py_strip].
        -- destruct g; cbn [py_strip];
             eexists; repeat split; cbn; reflexivity.
        -- eexists; repeat split; cbn; reflexivity.
      * eexists; repeat split; cbn; reflexivity.
    + eexists; repeat split; cbn; reflexivity.
  - eexists; repeat split; cbn; reflexivity.
Qed.

Lemma slot_get (E : env) (d : dict) (k : string) :
  py_str E (match lookup k d with Some x => x | None => PyStr "N/A" end) = slot E d k.
Proof. unfold slot. destruct (lookup k d); reflexivity. Qed.

Lemma get_llm_suggestion_total (E : env) (finding : value) (st : state) :
  exists st' o, get_llm_suggestion E finding st = (st', Ok o).
Proof.
  unfold get_llm_suggestion. run.
  destruct (build_prompt E finding) as [p|e]; [|eauto].
  destruct (requests_post E _ _) as [resp|e]; [|eauto].
  destruct (status_code resp =? 200); [|eauto].
  destruct (json resp) as [body|e]; [|eauto].
  destruct (py_get body "generated_text" (PyStr "")) as [g|e]; [|eauto].
  destruct (py_strip g) as [s|e]; eauto.
Qed.

Lemma print_finding_dict (E : env) (d : dict) (st : state) :
  let n := List.length (st_http st) in
  exists st',
    print_finding E (PyDict d) st = (st', Ok tt)
    /\ st_log st'
       = (st_log st
            ++ entry_records E n d (call_record E (st_clock st) (requests_post E n (request_of E d))))%list
    /\ st_http st' = (st_http st ++ [request_of E d])%list
    /\ st_procs st' = st_procs st
    /\ st_clones st' = st_clones st.
Proof.
  unfold print_finding, py_get.
  cbv [bind lift logging_info logging]. cbn [st_log st_clock st_clones st_procs st_http].
  match goal with
  | |- context [get_llm_suggestion E (PyDict d) ?s] =>
      destruct (get_llm_suggestion_dict E d s) as (st1 & Hrun & Hlog & Hhttp & Hprocs & Hclones)
  end.
  cbn [st_log st_clock st_clones st_procs st_http] in *.
  rewrite Hrun.
  eexists; split; [reflexivity|].
  cbn [st_log st_clock st_clones st_procs st_http].
  rewrite Hlog, Hhttp, Hprocs, Hclones.
  repeat split.
  rewrite !slot_get. unfold entry_records, suggestion_line, info.
  rewrite <- !app_assoc. reflexivity.
Qed.

Lemma for_each_print_finding (E : env) (ds : list dict) :
  forall st : state,
  exists st' calls,
    for_each (print_finding E) (map PyDict ds) st = (st', Ok tt)
    /\ List.length calls = List.length ds
    /\ st_log st'
       = (st_log st ++ concat (report_blocks E (List.length (st_http st)) ds calls))%list
    /\ st_http st' = (st_http st ++ map (request_of E) ds)%list
    /\ st_procs st' = st_procs st
    /\ st_clones st' = st_clones st.
Proof.
  induction ds as [|d ds IH]; intros st.
  - exists st, []. cbn. rewrite !app_nil_r. repeat split.
  - cbn [map for_each]. unfold bind at 1.
    destruct (print_finding_dict E d st) as (st1 & Hrun & Hlog & Hhttp & Hprocs & Hclones).
    rewrite Hrun.
    destruct (IH st1) as (st2 & calls & Hrun2 & Hlen & Hlog2 & Hhttp2 & Hprocs2 & Hclones2).
    exists st2, (call_record E (st_clock st)
                   (requests_post E (List.length (st_http st)) (request_of E d)) :: calls).
    split; [exact Hrun2|].
    split; [cbn; congruence|].
    rewrite Hlog2, Hhttp2, Hprocs2, Hclones2, Hlog, Hhttp, Hprocs, Hclones.
    rewrite length_app. cbn [List.length].
    replace (List.length (st_http st) + 1)%nat with (S (List.length (st_http st))) by lia.
    cbn [report_blocks concat map].
    rewrite <- !app_assoc. repeat split.
Qed.

Lemma all_dicts_map (l : list value) :
  forall ds, all_dicts l = Some ds -> l = map PyDict ds.
Proof.
  induction l as [|v l IH]; intros ds H; cbn in H.
  - injection H as <-. reflexivity.
  - destruct v; try discriminate.
    destruct (all_dicts l) as [ds'|]; [|discriminate].
    injection H as <-. cbn. f_equal. apply IH. reflexivity.
Qed.

Lemma scan_findings_shape (results : value) (ds : list dict) :
  scan_findings results = Some ds ->
  exists rs, results = PyDict rs /\ lookup "results" rs = Some (PyList (map PyDict ds)).
Proof.
  destruct results as [ | | | | | |rs]; cbn; try discriminate.
  destruct (lookup "results" rs) as [v|] eqn:Hl; [|discriminate].
  destruct v; try discriminate.
  intros H. exists rs. split; [reflexivity|].
  rewrite Hl, (all_dicts_map _ _ H). reflexivity.
Qed.

Lemma scan_findings_truthy (results : value) (ds : list dict) :
  scan_findings results = Some ds -> truthy results = true.
Proof.
  intros H. destruct (scan_findings_shape _ _ H) as (rs & -> & Hl).
  destruct rs; [discriminate|reflexivity].
Qed.

Lemma print_results_findings (E : env) (tool_name : string) (results : value)
      (ds : list dict) (st : state) :
  scan_findings results = Some ds ->
  exists st' calls,
    print_results E tool_name results st = (st', Ok tt)
    /\ List.length calls = List.length ds
    /\ st_log st'
       = (st_log st ++ report_header E tool_name
            :: concat (report_blocks E (List.length (st_http st)) ds calls))%list
    /\ st_http st' = (st_http st ++ map (request_of E) ds)%list
    /\ st_procs st' = st_procs st
    /\ st_clones st' = st_clones st.
Proof.
  intros H. pose proof (scan_findings_truthy _ _ H) as Ht.
  destruct (scan_findings_shape _ _ H) as (rs & -> & Hl).
  unfold print_results. rewrite Ht.
  unfold py_contains, py_getitem, has_key. rewrite Hl.
  cbv [bind lift logging_info logging py_iter].
  cbn [st_log st_clock st_clones st_procs st_http].
  match goal with
  | |- context [for_each (print_finding E) (map PyDict ds) ?s] =>
      destruct (for_each_print_finding E ds s)
        as (st' & calls & Hrun & Hlen & Hlog & Hhttp & Hprocs & Hclones)
  end.
  cbn [st_log st_clock st_clones st_procs st_http] in *.
  exists st', calls. rewrite Hrun, Hlog, Hhttp, Hprocs, Hclones.
  repeat split; try assumption.
  rewrite <- app_assoc. reflexivity.
Qed.

Lemma clone_repo_ok (E : env) (url dir : string) (st : state) :
  clone_from E url dir = Ok tt ->
  exists st',
    clone_repo E url dir st = (st', Ok true)
    /\ st_log st' = (st_log st ++ [cloning_record url dir; info "Cloning successful."])%list
    /\ st_http st' = st_http st /\ st_procs st' = st_procs st
    /\ st_clock st' = st_clock st.
Proof.
  intros H. unfold clone_repo. run. rewrite H.
  eexists; split; [reflexivity|]. cbn. rewrite <- app_assoc. repeat split.
Qed.



Lemma run_sast_tool_spec (E : env) (tool_name repo_path output_file : string) (st : state) :
  exists st',
    run_sast_tool E tool_name repo_path output_file st
      = (st', Ok (returned_value (scan_outcome_of E tool_name repo_path output_file)))
    /\ st_log st'
       = (st_log st ++ scan_log E tool_name repo_path output_file (st_clock st))%list
    /\ st_http st' = st_http st
    /\ st_procs st' = (st_procs st ++ spawned tool_name repo_path output_file)%list.
Proof.
  unfold run_sast_tool, scan_outcome_of, scan_log, spawned.
  destruct (assoc tool_name (commands repo_path output_file)) as [argv|].
  - run. destruct (subprocess_run E argv) as [code|e].
    + cbn [returned_value]. destruct (path_exists E output_file).
      * destruct (json_load_file E output_file) as [v|e].
        -- eexists; split; [reflexivity|]. cbn. rewrite <- !app_assoc. repeat split.
        -- unfold handled_record. destruct (is_FileNotFoundError e);
             (eexists; split; [reflexivity|]); cbn; rewrite <- !app_assoc; repeat split.
      * eexists; split; [reflexivity|]. cbn. rewrite <- !app_assoc. repeat split.
    + unfold handled_record. destruct (is_FileNotFoundError e);
        (eexists; split; [reflexivity|]); cbn; rewrite <- !app_assoc; repeat split.
  - run. eexists; split; [reflexivity|]. cbn. rewrite <- !app_assoc, app_nil_r. repeat split.
Qed.

Lemma main_after_clone (E : env) (args : arguments) (st : state) :
  clone_from E (repo_url args) (mkdtemp E) = Ok tt ->
  let results :=
    returned_value (scan_outcome_of E (tool args) (mkdtemp E) (output_path E)) in
  exists st2,
    st_log st2
    = (st_log st ++ [cloning_record (repo_url args) (mkdtemp E); info "Cloning successful."]
         ++ scan_log E (tool args) (mkdtemp E) (output_path E) (st_clock st))%list
    /\ st_http st2 = st_http st
    /\ st_procs st2 = (st_procs st ++ spawned (tool args) (mkdtemp E) (output_path E))%list
    /\ main E args st
       = if truthy results then print_results E (tool args) results st2
         else logging_info (nl ++ "No security findings detected.") st2.
Proof.
  intros Hclone results. unfold main. unfold bind at 1.
  destruct (clone_repo_ok E _ _ st Hclone) as (st1 & -> & Hlog1 & Hhttp1 & Hprocs1 & Hclock1).
  cbn [negb]. unfold bind at 1. fold (output_path E).
  destruct (run_sast_tool_spec E (tool args) (mkdtemp E) (output_path E) st1)
    as (st2 & -> & Hlog2 & Hhttp2 & Hprocs2).
  exists st2. rewrite Hlog2, Hhttp2, Hprocs2, Hlog1, Hhttp1, Hprocs1, Hclock1.
  rewrite <- app_assoc. repeat split.
  subst results. destruct (truthy _); reflexivity.
Qed.


Lemma nth_error_report_blocks (E : env) (ds : list dict) :
  forall (calls : list log_record) (n i : nat) (d : dict),
    List.length calls = List.length ds ->
    nth_error ds i = Some d ->
    exists call,
      nth_error calls i = Some call
      /\ nth_error (report_blocks E n ds calls) i = Some (entry_records E (n + i) d call).
Proof.
  induction ds as [|d0 ds IH]; intros calls n i d Hlen Hi.
  - destruct i; discriminate.
  - destruct calls as [|c calls]; [discriminate|].
    destruct i as [|i]; cbn in Hi.
    + injection Hi as <-. exists c. rewrite Nat.add_0_r. split; reflexivity.
    + cbn in Hlen. injection Hlen as Hlen.
      destruct (IH calls (S n) i d Hlen Hi) as (call & Hc & Hb).
      exists call. split; [exact Hc|]. cbn.
      replace (n + S i)%nat with (S n + i)%nat by lia. exact Hb.
Qed.

Lemma length_report_blocks (E : env) (ds : list dict) :
  forall (calls : list log_record) (n : nat),
    List.length calls = List.length ds ->
    List.length (report_blocks E n ds calls) = List.length ds.
Proof.
  induction ds as [|d ds IH]; intros [|c calls] n Hlen; cbn in *; try discriminate;
    [reflexivity|]. f_equal. apply IH. congruence.
Qed.

Lemma failed_no_suggestion (r : result response) :
  remediation_failed r = true -> response_suggestion r = None.
Proof.
  destruct r as [resp|e]; cbn; [|reflexivity].
  destruct (status_code resp =? 200) eqn:Hs; [|reflexivity].
  apply Z.eqb_eq in Hs. rewrite Hs. cbn.
  destruct (json resp) as [body|]; [|reflexivity].
  destruct body; try reflexivity.
  destruct (lookup "generated_text" d) as [g|]; [|discriminate].
  destruct g; try reflexivity. discriminate.
Qed.

Lemma py_str_ext (E E' : env) (v : value) :
  (forall x, py_repr E' x = py_repr E x) -> py_str E' v = py_str E v.
Proof. intros H. destruct v; cbn; auto. Qed.

Lemma slot_ext (E E' : env) (d : dict) (k : string) :
  (forall x, py_repr E' x = py_repr E x) -> slot E' d k = slot E d k.
Proof. intros H. unfold slot. destruct (lookup k d); auto using py_str_ext. Qed.

Lemma get_llm_suggestion_http (E : env) (d : dict) (st : state) :
  st_http (fst (get_llm_suggestion E (PyDict d) st)) = (st_http st ++ [request_of E d])%list.
Proof.
  destruct (get_llm_suggestion_dict E d st) as (st' & -> & _ & H & _). exact H.
Qed.

(** * Properties *)

(** ** The remediation client *)

(** C6. The prompt of a finding is a fixed template over its message
    ([issue_text]), file path ([filename]) and line number ([line_number]),
    each replaced by the literal [N/A] when the finding lacks the key, and
    closed by the fixed instruction asking for a fix under 100 words.  It
    is the prompt the request carries, and it depends on nothing but the
    finding: not on the state of the run, nor on the clock, the network or
    any other answer of the environment. *)
Theorem prompt_is_fixed_template (E : env) (d : dict) :
  build_prompt E (PyDict d)
  = Ok ("Given this security finding: " ++ slot E d "issue_text"
          ++ " in file " ++ slot E d "filename"
          ++ " at line " ++ slot E d "line_number"
          ++ ", generate a concise and correct security fix. Keep the response under 100 words.")
  /\ (forall k, lookup k d = None -> slot E d k = "N/A")
  /\ (forall k v, lookup k d = Some v -> slot E d k = py_str E v)
  /\ (forall st p,
         build_prompt E (PyDict d) = Ok p ->
         st_http (fst (get_llm_suggestion E (PyDict d) st))
         = (st_http st ++ [ {| req_url := REMOTE_MODEL_URL;
                               req_json := PyDict [("prompt", PyStr p)];
                               req_timeout := None |} ])%list)
  /\ (forall E' d',
         d' = d -> (forall v, py_repr E' v = py_repr E v) ->
         build_prompt E' (PyDict d') = build_prompt E (PyDict d)).
Proof.
  split; [apply build_prompt_dict|].
  split; [intros k Hk; unfold slot; rewrite Hk; reflexivity|].
  split; [intros k v Hk; unfold slot; rewrite Hk; reflexivity|].
  split.
  - intros st p Hp. rewrite build_prompt_dict in Hp. injection Hp as <-.
    apply get_llm_suggestion_http.
  - intros E' d' -> Hrepr. rewrite !build_prompt_dict.
    unfold prompt_of. rewrite !(slot_ext E E') by exact Hrepr. reflexivity.
Qed.

Lemma prompt_is_fixed_template_witness :
  lookup "line_number" file_level_finding = None
  /\ slot sample_env file_level_finding "line_number" = "N/A"
  /\ build_prompt sample_env (PyDict file_level_finding)
     = Ok "Given this security finding: world-writable file in file deploy.sh at line N/A, generate a concise and correct security fix. Keep the response under 100 words.".
Proof.
  destruct (prompt_is_fixed_template sample_env file_level_finding) as (Hp & Habsent & _).
  split; [reflexivity|].
  split; [apply Habsent; reflexivity|].
  rewrite Hp. reflexivity.
Defined.

(** C5, as the code has it.  One suggestion call issues exactly one POST
    to the remediation service whatever the answer is (nothing is retried),
    so a report over [ds] issues one request per finding, in order; the
    request passes no [timeout], so nothing bounds the blocking call. *)
Theorem one_request_per_finding_without_timeout
        (E : env) (tool_name : string) (results : value) (ds : list dict) (st : state) :
  scan_findings results = Some ds ->
  let st' := fst (print_results E tool_name results st) in
  st_http st' = (st_http st ++ map (request_of E) ds)%list
  /\ List.length (st_http st') = (List.length (st_http st) + List.length ds)%nat
  /\ (forall d st0,
         st_http (fst (get_llm_suggestion E (PyDict d) st0))
         = (st_http st0 ++ [request_of E d])%list)
  /\ (forall d, req_url (request_of E d) = REMOTE_MODEL_URL
                /\ req_timeout (request_of E d) = None).
Proof.
  intros H st'.
  destruct (print_results_findings E tool_name results ds st H)
    as (st1 & calls & Hrun & _ & _ & Hhttp & _).
  subst st'. rewrite Hrun. cbn [fst].
  split; [exact Hhttp|].
  split; [rewrite Hhttp, length_app, length_map; reflexivity|].
  split; [intros; apply get_llm_suggestion_http|].
  intros d. split; reflexivity.
Qed.

Lemma one_request_per_finding_without_timeout_witness :
  scan_findings sample_report = Some [sample_finding; file_level_finding]
  /\ st_http (fst (print_results service_down_env "bandit" sample_report initial_state))
     = [request_of service_down_env sample_finding;
        request_of service_down_env file_level_finding].
Proof.
  assert (Hscan : scan_findings sample_report = Some [sample_finding; file_level_finding])
    by reflexivity.
  split; [exact Hscan|].
  destruct (one_request_per_finding_without_timeout
              service_down_env "bandit" sample_report
              [sample_finding; file_level_finding] initial_state Hscan) as (Hhttp & _).
  rewrite Hhttp. reflexivity.
Defined.

(** C5 as the design states it fails: the request a suggestion call issues
    carries no timeout at all. *)
Lemma suggestion_request_has_no_timeout :
  exists rq,
    st_http (fst (get_llm_suggestion sample_env (PyDict sample_finding) initial_state)) = [rq]
    /\ ~ (exists t : Z, req_timeout rq = Some t).
Proof.
  eexists. split; [vm_compute; reflexivity|].
  cbn. intros [t Ht]. discriminate Ht.
Qed.

(** C10. A 200 reply whose JSON object has no [generated_text] makes the
    suggestion call return the empty string, not [None], and log its
    success record, not an error; the report then shows the unavailable
    marker for that finding. *)
Theorem missing_generated_text_reads_as_unavailable
        (E : env) (d : dict) (st : state) (resp : response) (body : dict) :
  requests_post E (List.length (st_http st)) (request_of E d) = Ok resp ->
  status_code resp = 200 ->
  json resp = Ok (PyDict body) ->
  lookup "generated_text" body = None ->
  let generated :=
    info ("LLM suggestion generated in "
            ++ format_2f E (PrimFloat.sub (time_time E (S (st_clock st)))
                                          (time_time E (st_clock st)))
            ++ " seconds.") in
  (exists st1,
      get_llm_suggestion E (PyDict d) st = (st1, Ok (Some EmptyString))
      /\ st_log st1 = (st_log st ++ [generated])%list)
  /\ (exists st2,
         print_finding E (PyDict d) st = (st2, Ok tt)
         /\ st_log st2
            = (st_log st
                 ++ [ info ("Severity: " ++ slot E d "issue_severity");
                      info ("Issue: " ++ slot E d "issue_text");
                      info ("File: " ++ slot E d "filename" ++ ":" ++ slot E d "line_number");
                      generated;
                      info ("Suggestion: No suggestion available." ++ nl) ])%list).
Proof.
  intros Hpost Hstatus Hjson Hkey generated.
  assert (Hsugg : response_suggestion (Ok resp) = Some EmptyString).
  { cbn. rewrite Hstatus, Hjson, Hkey. reflexivity. }
  assert (Hcall : call_record E (st_clock st) (Ok resp) = generated).
  { cbn. rewrite Hstatus, Hjson. cbn. rewrite Hkey. reflexivity. }
  split.
  - destruct (get_llm_suggestion_dict E d st) as (st1 & Hrun & Hlog & _).
    rewrite Hpost, Hsugg in Hrun. rewrite Hpost, Hcall in Hlog.
    exists st1. split; assumption.
  - destruct (print_finding_dict E d st) as (st2 & Hrun & Hlog & _).
    exists st2. split; [exact Hrun|].
    rewrite Hlog, Hpost, Hcall. unfold entry_records, suggestion_line.
    rewrite Hpost, Hsugg. reflexivity.
Qed.

Lemma missing_generated_text_reads_as_unavailable_witness :
  snd (get_llm_suggestion empty_reply_env (PyDict sample_finding) initial_state)
  = Ok (Some EmptyString)
  /\ nth_error (st_log (fst (print_finding empty_reply_env (PyDict sample_finding)
                                           initial_state))) 4
     = Some (info ("Suggestion: No suggestion available." ++ nl)).
Proof.
  destruct (missing_generated_text_reads_as_unavailable
              empty_reply_env sample_finding initial_state empty_reply [])
    as ((st1 & Hrun & _) & (st2 & Hprint & Hlog));
    try reflexivity.
  split.
  - rewrite Hrun. reflexivity.
  - rewrite Hprint. cbn [fst]. rewrite Hlog. reflexivity.
Defined.

(** ** The report *)

Lemma suggestion_line_failed (E : env) (n : nat) (d : dict) :
  remediation_failed (requests_post E n (request_of E d)) = true ->
  suggestion_line E n d = unavailable_line.
Proof.
  intros H. unfold suggestion_line. rewrite (failed_no_suggestion _ H). reflexivity.
Qed.

(** C2. The report follows the findings of the scan result in their order:
    after the header the log holds one block per finding, there are as many
    blocks as findings, the [i]-th block is the entry of the [i]-th finding
    and the [i]-th request of the report carries its prompt. *)
Theorem report_follows_findings_order
        (E : env) (tool_name : string) (results : value) (ds : list dict) (st : state) :
  scan_findings results = Some ds ->
  let n := List.length (st_http st) in
  exists st' calls,
    print_results E tool_name results st = (st', Ok tt)
    /\ st_log st'
       = (st_log st ++ report_header E tool_name :: concat (report_blocks E n ds calls))%list
    /\ List.length (report_blocks E n ds calls) = List.length ds
    /\ (forall i d,
           nth_error ds i = Some d ->
           exists call,
             nth_error (report_blocks E n ds calls) i
             = Some [ info ("Severity: " ++ slot E d "issue_severity");
                      info ("Issue: " ++ slot E d "issue_text");
                      info ("File: " ++ slot E d "filename" ++ ":" ++ slot E d "line_number");
                      call;
                      suggestion_line E (n + i) d ])
    /\ st_http st' = (st_http st ++ map (request_of E) ds)%list.
Proof.
  intros H n.
  destruct (print_results_findings E tool_name results ds st H)
    as (st' & calls & Hrun & Hlen & Hlog & Hhttp & _).
  exists st', calls. split; [exact Hrun|]. split; [exact Hlog|].
  split; [apply length_report_blocks; exact Hlen|].
  split; [|exact Hhttp].
  intros i d Hi.
  destruct (nth_error_report_blocks E ds calls n i d Hlen Hi) as (call & _ & Hb).
  exists call. exact Hb.
Qed.

Lemma report_follows_findings_order_witness :
  scan_findings sample_report = Some [sample_finding; file_level_finding]
  /\ exists st' calls,
       print_results sample_env "bandit" sample_report initial_state = (st', Ok tt)
       /\ exists call,
            nth_error (report_blocks sample_env 0 [sample_finding; file_level_finding] calls) 1
            = Some [ info "Severity: LOW";
                     info "Issue: world-writable file";
                     info "File: deploy.sh:N/A";
                     call;
                     info ("Suggestion: Use environment variables." ++ nl) ].
Proof.
  assert (Hscan : scan_findings sample_report = Some [sample_finding; file_level_finding])
    by reflexivity.
  split; [exact Hscan|].
  destruct (report_follows_findings_order
              sample_env "bandit" sample_report
              [sample_finding; file_level_finding] initial_state Hscan)
    as (st' & calls & Hrun & _ & _ & Hnth & _).
  exists st', calls. split; [exact Hrun|].
  destruct (Hnth 1%nat file_level_finding) as (call & Hcall); [reflexivity|].
  exists call. exact Hcall.
Defined.

(** C1. A failed remediation request never leaves the suggestion call: the
    call returns for every finding and every answer of the service, and
    returns [None] when the request failed.  In a run whose scan produced
    the findings [ds], the pipeline completes, the entry of each finding
    whose request failed ends with the unavailable marker, the other
    entries being those of their own requests, and if every request fails
    every entry of the report ends with the marker. *)
Theorem remediation_failures_are_isolated
        (E : env) (args : arguments) (results : value) (ds : list dict) (st : state) :
  clone_from E (repo_url args) (mkdtemp E) = Ok tt ->
  scan_outcome_of E (tool args) (mkdtemp E) (output_path E) = Scanned results ->
  scan_findings results = Some ds ->
  let n := List.length (st_http st) in
  let failed (i : nat) (d : dict) :=
    remediation_failed (requests_post E (n + i) (request_of E d)) = true in
  (forall finding st0, exists st1 o, get_llm_suggestion E finding st0 = (st1, Ok o))
  /\ (forall d st0,
         remediation_failed
           (requests_post E (List.length (st_http st0)) (request_of E d)) = true ->
         snd (get_llm_suggestion E (PyDict d) st0) = Ok None)
  /\ exists st' calls,
       main E args st = (st', Ok tt)
       /\ exit_status (snd (main E args st)) = 0
       /\ st_log st'
          = (st_log st
               ++ [cloning_record (repo_url args) (mkdtemp E); info "Cloning successful."]
               ++ scan_log E (tool args) (mkdtemp E) (output_path E) (st_clock st)
               ++ report_header E (tool args) :: concat (report_blocks E n ds calls))%list
       /\ List.length (report_blocks E n ds calls) = List.length ds
       /\ (forall i d,
              nth_error ds i = Some d ->
              exists call,
                nth_error (report_blocks E n ds calls) i
                = Some (entry_records E (n + i) d call)
                /\ (failed i d ->
                    nth_error (entry_records E (n + i) d call) 4 = Some unavailable_line))
       /\ ((forall i d, nth_error ds i = Some d -> failed i d) ->
           forall block,
             In block (report_blocks E n ds calls) ->
             nth_error block 4 = Some unavailable_line).
Proof.
  intros Hclone Hscan Hfind n failed.
  split; [apply get_llm_suggestion_total|].
  split.
  { intros d st0 Hfail.
    destruct (get_llm_suggestion_dict E d st0) as (st1 & -> & _).
    cbn [snd]. rewrite (failed_no_suggestion _ Hfail). reflexivity. }
  destruct (main_after_clone E args st Hclone) as (st2 & Hlog2 & Hhttp2 & _ & Hmain).
  rewrite Hscan in Hmain. cbn [returned_value] in Hmain.
  rewrite (scan_findings_truthy _ _ Hfind) in Hmain.
  destruct (print_results_findings E (tool args) results ds st2 Hfind)
    as (st' & calls & Hrun & Hlen & Hlog & _).
  rewrite Hhttp2 in Hlog. fold n in Hlog.
  exists st', calls.
  rewrite Hmain, Hrun. cbn [snd exit_status].
  split; [reflexivity|]. split; [reflexivity|].
  split; [rewrite Hlog, Hlog2, <- !app_assoc; reflexivity|].
  split; [apply length_report_blocks; exact Hlen|].
  assert (Hentry : forall i d,
             nth_error ds i = Some d ->
             exists call,
               nth_error (report_blocks E n ds calls) i = Some (entry_records E (n + i) d call)
               /\ (failed i d ->
                   nth_error (entry_records E (n + i) d call) 4 = Some unavailable_line)).
  { intros i d Hi.
    destruct (nth_error_report_blocks E ds calls n i d Hlen Hi) as (call & _ & Hb).
    exists call. split; [exact Hb|].
    intros Hfail. cbn [entry_records nth_error]. f_equal.
    apply suggestion_line_failed. exact Hfail. }
  split; [exact Hentry|].
  intros Hall block Hin.
  destruct (In_nth_error _ _ Hin) as (i & Hi).
  assert (Hlt : (i < List.length ds)%nat).
  { rewrite <- (length_report_blocks E ds calls n Hlen).
    apply nth_error_Some. congruence. }
  destruct (nth_error ds i) as [d|] eqn:Hd;
    [|apply nth_error_None in Hd; lia].
  destruct (Hentry i d Hd) as (call & Hb & Hmark).
  rewrite Hb in Hi. injection Hi as <-. apply Hmark, Hall, Hd.
Qed.

Lemma remediation_failures_are_isolated_witness :
  clone_from service_down_env (repo_url sample_args) (mkdtemp service_down_env) = Ok tt
  /\ scan_outcome_of service_down_env "bandit" (mkdtemp service_down_env)
                     (output_path service_down_env) = Scanned sample_report
  /\ scan_findings sample_report = Some [sample_finding; file_level_finding]
  /\ exists st' calls,
       main service_down_env sample_args initial_state = (st', Ok tt)
       /\ forall block,
            In block (report_blocks service_down_env 0
                                    [sample_finding; file_level_finding] calls) ->
            nth_error block 4 = Some (info ("Suggestion: No suggestion available." ++ nl)).
Proof.
  assert (Hclone : clone_from service_down_env (repo_url sample_args)
                              (mkdtemp service_down_env) = Ok tt) by reflexivity.
  assert (Hscan : scan_outcome_of service_down_env (tool sample_args)
                                  (mkdtemp service_down_env)
                                  (output_path service_down_env) = Scanned sample_report)
    by (vm_compute; reflexivity).
  assert (Hfind : scan_findings sample_report = Some [sample_finding; file_level_finding])
    by reflexivity.
  split; [exact Hclone|]. split; [exact Hscan|]. split; [exact Hfind|].
  destruct (remediation_failures_are_isolated
              service_down_env sample_args sample_report
              [sample_finding; file_level_finding] initial_state Hclone Hscan Hfind)
    as (_ & _ & st' & calls & Hmain & _ & _ & _ & _ & Hall).
  exists st', calls. split; [exact Hmain|].
  apply Hall. intros i d _. reflexivity.
Defined.

(** ** The scan *)

Lemma run_sast_tool_value (E : env) (tool_name repo_path output_file : string) (st : state) :
  snd (run_sast_tool E tool_name repo_path output_file st)
  = Ok (returned_value (scan_outcome_of E tool_name repo_path output_file)).
Proof.
  destruct (run_sast_tool_spec E tool_name repo_path output_file st) as (st' & -> & _).
  reflexivity.
Qed.

Lemma scan_outcome_exited (E : env) (tool_name repo_path output_file : string)
      (argv : list string) (code : Z) :
  assoc tool_name (commands repo_path output_file) = Some argv ->
  subprocess_run E argv = Ok code ->
  returned_value (scan_outcome_of E tool_name repo_path output_file)
  = artifact_value E output_file.
Proof.
  intros Ha Hr. unfold scan_outcome_of, artifact_value. rewrite Ha, Hr.
  destruct (path_exists E output_file); [|reflexivity].
  destruct (json_load_file E output_file); reflexivity.
Qed.

(** C3. Once the scanner has been spawned, what [run_sast_tool] returns is
    decided by the artifact at [output_file] alone: the decoded content
    when the file exists and decodes, [None] when it is missing or does not
    decode.  The child's return code [code] appears in neither, and two
    runs that find the same artifact return the same value whatever their
    return codes are.  The scanner is spawned once. *)
Theorem scan_result_ignores_exit_status
        (E : env) (tool_name repo_path output_file : string)
        (argv : list string) (code : Z) (st : state) :
  assoc tool_name (commands repo_path output_file) = Some argv ->
  subprocess_run E argv = Ok code ->
  let run := run_sast_tool E tool_name repo_path output_file st in
  snd run = Ok (artifact_value E output_file)
  /\ (forall v,
         path_exists E output_file = true -> json_load_file E output_file = Ok v ->
         snd run = Ok v)
  /\ (path_exists E output_file = false -> snd run = Ok PyNone)
  /\ (forall e,
         path_exists E output_file = true -> json_load_file E output_file = Raise e ->
         snd run = Ok PyNone)
  /\ (forall E' code' st0,
         subprocess_run E' argv = Ok code' ->
         path_exists E' output_file = path_exists E output_file ->
         json_load_file E' output_file = json_load_file E output_file ->
         snd (run_sast_tool E' tool_name repo_path output_file st0) = snd run)
  /\ st_procs (fst run) = (st_procs st ++ [argv])%list.
Proof.
  intros Ha Hr run.
  assert (Hval : snd run = Ok (artifact_value E output_file)).
  { subst run. rewrite run_sast_tool_value, (scan_outcome_exited E _ _ _ argv code Ha Hr).
    reflexivity. }
  split; [exact Hval|].
  split; [intros v He Hl; rewrite Hval; unfold artifact_value; rewrite He, Hl; reflexivity|].
  split; [intros He; rewrite Hval; unfold artifact_value; rewrite He; reflexivity|].
  split; [intros e He Hl; rewrite Hval; unfold artifact_value; rewrite He, Hl; reflexivity|].
  split.
  - intros E' code' st0 Hr' He Hl. rewrite Hval, run_sast_tool_value.
    rewrite (scan_outcome_exited E' _ _ _ argv code' Ha Hr').
    unfold artifact_value. rewrite He, Hl. reflexivity.
  - subst run.
    destruct (run_sast_tool_spec E tool_name repo_path output_file st)
      as (st' & -> & _ & _ & Hprocs).
    cbn [fst]. rewrite Hprocs. unfold spawned. rewrite Ha. reflexivity.
Qed.

Lemma scan_result_ignores_exit_status_witness :
  (subprocess_run sample_env
     ["bandit"; "-r"; "/repo"; "-f"; "json"; "-o"; "/repo/out.json"] = Ok 1
   /\ snd (run_sast_tool sample_env "bandit" "/repo" "/repo/out.json" initial_state)
      = Ok sample_report)
  /\ (subprocess_run artifact_missing_env
        ["bandit"; "-r"; "/repo"; "-f"; "json"; "-o"; "/repo/out.json"] = Ok 0
      /\ snd (run_sast_tool artifact_missing_env "bandit" "/repo" "/repo/out.json"
                            initial_state)
         = Ok PyNone).
Proof.
  assert (Hcmd : assoc "bandit" (commands "/repo" "/repo/out.json")
                 = Some ["bandit"; "-r"; "/repo"; "-f"; "json"; "-o"; "/repo/out.json"])
    by reflexivity.
  split; (split; [reflexivity|]).
  - assert (Hrun : subprocess_run sample_env
                     ["bandit"; "-r"; "/repo"; "-f"; "json"; "-o"; "/repo/out.json"] = Ok 1)
      by reflexivity.
    destruct (scan_result_ignores_exit_status
                sample_env "bandit" "/repo" "/repo/out.json" _ 1 initial_state Hcmd Hrun)
      as (_ & Hpresent & _).
    apply Hpresent; reflexivity.
  - assert (Hrun : subprocess_run artifact_missing_env
                     ["bandit"; "-r"; "/repo"; "-f"; "json"; "-o"; "/repo/out.json"] = Ok 0)
      by reflexivity.
    destruct (scan_result_ignores_exit_status
                artifact_missing_env "bandit" "/repo" "/repo/out.json" _ 0 initial_state
                Hcmd Hrun)
      as (_ & _ & Hmissing & _).
    apply Hmissing; reflexivity.
Defined.

(** C4, as the code has it.  A scanner that is not installed, a missing
    artifact and an artifact that does not decode all make [run_sast_tool]
    return [None] to its caller; they differ in the log only: the first
    logs the "not found" error, the second logs no error at all, the
    third logs the "Error running" error with the decoder's message. *)
Theorem scan_failures_all_return_None
        (E : env) (tool_name repo_path output_file : string)
        (argv : list string) (st : state) :
  assoc tool_name (commands repo_path output_file) = Some argv ->
  let run := run_sast_tool E tool_name repo_path output_file st in
  (forall e,
      subprocess_run E argv = Raise e -> is_FileNotFoundError e = true ->
      snd run = Ok PyNone
      /\ st_log (fst run)
         = (st_log st ++ [ running_record tool_name repo_path;
                           not_found_record tool_name ])%list)
  /\ (forall code,
         subprocess_run E argv = Ok code -> path_exists E output_file = false ->
         snd run = Ok PyNone
         /\ st_log (fst run)
            = (st_log st ++ [ running_record tool_name repo_path;
                              completed_record E tool_name (st_clock st) ])%list)
  /\ (forall code e,
         subprocess_run E argv = Ok code -> path_exists E output_file = true ->
         json_load_file E output_file = Raise e -> is_FileNotFoundError e = false ->
         snd run = Ok PyNone
         /\ st_log (fst run)
            = (st_log st ++ [ running_record tool_name repo_path;
                              completed_record E tool_name (st_clock st);
                              error_running_record tool_name e ])%list).
Proof.
  intros Ha run. subst run.
  destruct (run_sast_tool_spec E tool_name repo_path output_file st)
    as (st' & -> & Hlog & _).
  cbn [fst snd]. rewrite Hlog. unfold scan_outcome_of, scan_log. rewrite Ha.
  split; [|split].
  - intros e Hr He. rewrite Hr. unfold handled_record. rewrite He. split; reflexivity.
  - intros code Hr Hex. rewrite Hr, Hex. split; reflexivity.
  - intros code e Hr Hex Hl He. rewrite Hr, Hex, Hl. unfold handled_record.
    rewrite He. split; reflexivity.
Qed.

Lemma scan_failures_all_return_None_witness :
  snd (run_sast_tool tool_missing_env "bandit" "/repo" "/repo/out.json" initial_state)
  = Ok PyNone
  /\ snd (run_sast_tool artifact_garbled_env "bandit" "/repo" "/repo/out.json" initial_state)
     = Ok PyNone.
Proof.
  assert (Hcmd : assoc "bandit" (commands "/repo" "/repo/out.json")
                 = Some ["bandit"; "-r"; "/repo"; "-f"; "json"; "-o"; "/repo/out.json"])
    by reflexivity.
  split.
  - destruct (scan_failures_all_return_None
                tool_missing_env "bandit" "/repo" "/repo/out.json" _ initial_state Hcmd)
      as (Hmissing & _).
    eapply Hmissing; reflexivity.
  - destruct (scan_failures_all_return_None
                artifact_garbled_env "bandit" "/repo" "/repo/out.json" _ initial_state Hcmd)
      as (_ & _ & Hgarbled).
    eapply (Hgarbled 0); reflexivity.
Defined.

(** C4 as the design states it fails: with Bandit not installed and with
    Bandit leaving no report, the caller receives the same value, so no
    caller can tell the two apart. *)
Lemma tool_missing_and_artifact_missing_look_alike :
  let r1 := snd (run_sast_tool tool_missing_env "bandit" "/repo" "/repo/out.json"
                               initial_state) in
  let r2 := snd (run_sast_tool artifact_missing_env "bandit" "/repo" "/repo/out.json"
                               initial_state) in
  r1 = Ok PyNone /\ r2 = Ok PyNone
  /\ ~ (exists caller : result value -> bool, caller r1 <> caller r2).
Proof.
  assert (H1 : snd (run_sast_tool tool_missing_env "bandit" "/repo" "/repo/out.json"
                                  initial_state) = Ok PyNone) by (vm_compute; reflexivity).
  assert (H2 : snd (run_sast_tool artifact_missing_env "bandit" "/repo" "/repo/out.json"
                                  initial_state) = Ok PyNone) by (vm_compute; reflexivity).
  cbv zeta. rewrite H1, H2.
  split; [reflexivity|]. split; [reflexivity|].
  intros (caller & Hneq). apply Hneq. reflexivity.
Qed.

(** ** The whole run *)












(** C8 at its failing input.  Bandit scans a clean repository and writes a
    report whose results list is empty: the run logs the header of the
    report and nothing after it, no summary line.  The line that says no
    findings were detected is what a run logs when the scanner is not
    installed. *)
Theorem clean_scan_renders_header_only :
  main clean_repo_env sample_args initial_state
  = ({| st_log :=
          [ info "Cloning repository: https://example.org/acme/app.git into /tmp/tmpk3s9";
            info "Cloning successful.";
            info "Running bandit on: /tmp/tmpk3s9";
            info "bandit scan completed in 0.00 seconds.";
            info (nl ++ "--- BANDIT Scan Results with LLM Suggestions ---") ];
        st_clock := 2;
        st_clones := [("https://example.org/acme/app.git", "/tmp/tmpk3s9")];
        st_procs := [ ["bandit"; "-r"; "/tmp/tmpk3s9"; "-f"; "json"; "-o";
                       "/tmp/tmpk3s9/sast_results.json"] ];
        st_http := [] |}, Ok tt)
  /\ scan_outcome_of clean_repo_env "bandit" "/tmp/tmpk3s9" "/tmp/tmpk3s9/sast_results.json"
     = Scanned empty_report
  /\ scan_findings empty_report = Some []
  /\ st_log (fst (main tool_missing_env sample_args initial_state))
     = [ info "Cloning repository: https://example.org/acme/app.git into /tmp/tmpk3s9";
         info "Cloning successful.";
         info "Running bandit on: /tmp/tmpk3s9";
         error "Error: 'bandit' not found. Install it before running.";
         info (nl ++ "No security findings detected.") ].
Proof.
  repeat split; vm_compute; reflexivity.
Qed.

(** ** The remediation service *)

Lemma prefix_app (s t : string) : prefix s (s ++ t) = true.
Proof.
  induction s as [|c s IH]; cbn; [destruct t; reflexivity|].
  destruct (ascii_dec c c); [exact IH|congruence].
Qed.

Lemma generate_text_http (E : env) (request : GenerateRequest) (st : state) :
  st_http (fst (generate_text E request st)) = (st_http st ++ [ollama_request request])%list.
Proof.
  unfold generate_text. run. fold (ollama_request request).
  destruct (requests_post E (List.length (st_http st)) (ollama_request request))
    as [resp|e].
  - destruct (status_code resp =? 200); cbn [negb]; [|reflexivity].
    destruct (json resp) as [data|e]; [|destruct (is_RequestException e); reflexivity].
    destruct (py_get data "response" (PyStr "")) as [g|e];
      [|destruct (is_RequestException e); reflexivity].
    destruct (py_len g) as [n|e]; [|destruct (is_RequestException e); reflexivity].
    destruct (py_str_add (prompt request) g) as [full|e];
      [|destruct (is_RequestException e)]; reflexivity.
  - destruct (is_RequestException e); reflexivity.
Qed.

Lemma generate_text_success (E : env) (request : GenerateRequest) (st : state)
      (resp : response) (data : dict) (continuation : string) :
  requests_post E (List.length (st_http st)) (ollama_request request) = Ok resp ->
  status_code resp = 200 ->
  json resp = Ok (PyDict data) ->
  py_get (PyDict data) "response" (PyStr "") = Ok (PyStr continuation) ->
  snd (generate_text E request st)
  = Ok (PyDict [("generated_text", PyStr (prompt request ++ continuation))]).
Proof.
  intros Hb Hs Hj Hg.
  unfold generate_text. run. fold (ollama_request request).
  rewrite Hb, Hs. cbn [Z.eqb Pos.eqb negb]. rewrite Hj, Hg. reflexivity.
Qed.

Lemma generate_text_reply (E : env) (request : GenerateRequest) (st : state) (body : value) :
  snd (generate_text E request st) = Ok body ->
  exists resp data continuation,
    requests_post E (List.length (st_http st)) (ollama_request request) = Ok resp
    /\ status_code resp = 200 /\ json resp = Ok (PyDict data)
    /\ py_get (PyDict data) "response" (PyStr "") = Ok (PyStr continuation)
    /\ body = PyDict [("generated_text", PyStr (prompt request ++ continuation))].
Proof.
  unfold generate_text. run. fold (ollama_request request).
  destruct (requests_post E (List.length (st_http st)) (ollama_request request))
    as [resp|e]; [|destruct (is_RequestException e); intros [=]].
  destruct (status_code resp =? 200) eqn:Hs; cbn [negb]; [|intros [=]].
  apply Z.eqb_eq in Hs.
  destruct (json resp) as [data|e] eqn:Hj;
    [|destruct (is_RequestException e); intros [=]].
  destruct (py_get data "response" (PyStr "")) as [g|e] eqn:Hg;
    [|destruct (is_RequestException e); intros [=]].
  destruct data as [ | | | | | |data]; try discriminate Hg.
  destruct g as [ | | | |g|l|l]; cbn; intros Hbody; try discriminate Hbody.
  injection Hbody as <-. exists resp, data, g. repeat split; assumption.
Qed.

(** C9. Every 200 reply of [POST /generate] comes from a backend call
    that returned status 200 with a JSON object, and its [generated_text]
    is the prompt of the request followed by the backend's continuation
    (the [response] field, or the empty string when the object has none),
    so the prompt is a prefix of it; and every such backend call makes the
    service reply so. *)
Theorem generated_text_echoes_prompt (E : env) (request : GenerateRequest) (st : state) :
  let backend := requests_post E (List.length (st_http st)) (ollama_request request) in
  let run := generate_text E request st in
  (forall body,
      snd run = Ok body ->
      exists resp data continuation,
        backend = Ok resp /\ status_code resp = 200 /\ json resp = Ok (PyDict data)
        /\ py_get (PyDict data) "response" (PyStr "") = Ok (PyStr continuation)
        /\ body = PyDict [("generated_text", PyStr (prompt request ++ continuation))]
        /\ prefix (prompt request) (prompt request ++ continuation) = true)
  /\ (forall resp data continuation,
         backend = Ok resp -> status_code resp = 200 -> json resp = Ok (PyDict data) ->
         py_get (PyDict data) "response" (PyStr "") = Ok (PyStr continuation) ->
         snd run = Ok (PyDict [("generated_text", PyStr (prompt request ++ continuation))]))
  /\ st_http (fst run) = (st_http st ++ [ollama_request request])%list.
Proof.
  intros backend run. subst backend run.
  split; [|split].
  - intros body Hbody.
    destruct (generate_text_reply E request st body Hbody)
      as (resp & data & c & Hb & Hs & Hj & Hg & ->).
    exists resp, data, c. repeat split; try assumption. apply prefix_app.
  - intros resp data c. apply generate_text_success.
  - apply generate_text_http.
Qed.

Lemma generated_text_echoes_prompt_witness :
  snd (generate_text ollama_env (GenerateRequest_default "Fix this:") initial_state)
  = Ok (PyDict [("generated_text",
                 PyStr "Fix this: Read the secret from the environment.")]).
Proof.
  destruct (generated_text_echoes_prompt
              ollama_env (GenerateRequest_default "Fix this:") initial_state)
    as (_ & Hecho & _).
  apply (Hecho ollama_reply
               [ ("model", PyStr "llama2");
                 ("response", PyStr " Read the secret from the environment.");
                 ("done", PyBool true) ]
               " Read the secret from the environment."); reflexivity.
Defined.

(** * Further properties of the code *)

(** ** Strings *)

Lemma lstrip_fixed (s : string) :
  match s with
  | EmptyString => True
  | String c _ => is_space c = false
  end ->
  lstrip s = s.
Proof. destruct s as [|c s]; cbn; [reflexivity|]. intros ->. reflexivity. Qed.

Lemma lstrip_head (s : string) :
  match lstrip s with
  | EmptyString => True
  | String c _ => is_space c = false
  end.
Proof.
  induction s as [|c s IH]; cbn; [exact I|].
  destruct (is_space c) eqn:Hc; [exact IH|exact Hc].
Qed.

Lemma rstrip_head (c : ascii) (s : string) :
  is_space c = false -> exists r, rstrip (String c s) = String c r.
Proof.
  intros Hc. cbn. destruct (rstrip s); rewrite ?Hc; eauto.
Qed.

Lemma rstrip_cons (c : ascii) (s : string) :
  rstrip (String c s)
  = match rstrip s with
    | EmptyString => if is_space c then EmptyString else String c EmptyString
    | r => String c r
    end.
Proof. reflexivity. Qed.

Lemma rstrip_idempotent (s : string) : rstrip (rstrip s) = rstrip s.
Proof.
  induction s as [|c s IH]; [reflexivity|].
  rewrite rstrip_cons. destruct (rstrip s) as [|c' r] eqn:Hr.
  - destruct (is_space c) eqn:Hc; [reflexivity|].
    rewrite rstrip_cons. cbn [rstrip]. rewrite Hc. reflexivity.
  - rewrite rstrip_cons, IH. reflexivity.
Qed.

Lemma strip_idempotent (s : string) : strip (strip s) = strip s.
Proof.
  unfold strip.
  assert (H : lstrip (rstrip (lstrip s)) = rstrip (lstrip s)).
  { apply lstrip_fixed. pose proof (lstrip_head s) as Hh.
    destruct (lstrip s) as [|c t]; [exact I|].
    destruct (rstrip_head c t Hh) as (r & ->). exact Hh. }
  rewrite H. apply rstrip_idempotent.
Qed.

(** ** The suggestion call, beyond the claims *)

(** X1. Asked about something that is not an object, the suggestion call
    fails while building the prompt: it logs the attribute error, returns
    [None], reads no clock and issues no request. *)
Theorem suggestion_for_non_object_issues_no_request (E : env) (v : value) (st : state) :
  (forall d, v <> PyDict d) ->
  let run := get_llm_suggestion E v st in
  snd run = Ok None
  /\ st_log (fst run)
     = (st_log st
          ++ [error ("Error getting LLM suggestion: '" ++ type_name v
                       ++ "' object has no attribute 'get'")])%list
  /\ st_http (fst run) = st_http st
  /\ st_clock (fst run) = st_clock st.
Proof.
  intros Hv run. subst run.
  destruct v; try (exfalso; eapply Hv; reflexivity);
    unfold get_llm_suggestion; run; cbn; repeat split.
Qed.

Lemma suggestion_for_non_object_issues_no_request_witness :
  st_http (fst (get_llm_suggestion sample_env (PyStr "oops") initial_state)) = []
  /\ snd (get_llm_suggestion sample_env (PyStr "oops") initial_state) = Ok None.
Proof.
  assert (Hv : forall d, PyStr "oops" <> PyDict d) by discriminate.
  destruct (suggestion_for_non_object_issues_no_request
              sample_env (PyStr "oops") initial_state Hv) as (Hret & _ & Hhttp & _).
  split; [exact Hhttp|exact Hret].
Defined.

(** X2. Only status 200 counts as an answer.  Any other status, 201 or 204
    included, makes the call log the status with the raw body as an error
    and return [None] without decoding the body, so the entry shows the
    unavailable marker whatever the body held. *)
Theorem only_status_200_is_an_answer
        (E : env) (d : dict) (st : state) (resp : response) :
  requests_post E (List.length (st_http st)) (request_of E d) = Ok resp ->
  status_code resp <> 200 ->
  let run := get_llm_suggestion E (PyDict d) st in
  snd run = Ok None
  /\ st_log (fst run)
     = (st_log st
          ++ [error ("Error: " ++ str_of_int (status_code resp) ++ ", " ++ text resp)])%list
  /\ suggestion_line E (List.length (st_http st)) d = unavailable_line.
Proof.
  intros Hpost Hs run. subst run.
  apply Z.eqb_neq in Hs.
  destruct (get_llm_suggestion_dict E d st) as (st' & -> & Hlog & _).
  cbn [fst snd]. rewrite Hlog, Hpost. unfold suggestion_line. rewrite Hpost.
  cbn [response_suggestion call_record]. rewrite Hs. repeat split.
Qed.

Lemma only_status_200_is_an_answer_witness :
  status_code created_reply = 201
  /\ snd (get_llm_suggestion created_reply_env (PyDict sample_finding) initial_state)
     = Ok None.
Proof.
  split; [reflexivity|].
  assert (Hpost : requests_post created_reply_env (List.length (st_http initial_state))
                                (request_of created_reply_env sample_finding)
                  = Ok created_reply) by reflexivity.
  assert (Hs : status_code created_reply <> 200) by discriminate.
  destruct (only_status_200_is_an_answer
              created_reply_env sample_finding initial_state created_reply Hpost Hs)
    as (Hret & _).
  exact Hret.
Defined.

Lemma nth_error_after {A : Type} (l l' : list A) (k : nat) :
  nth_error (l ++ l') (List.length l + k) = nth_error l' k.
Proof.
  rewrite nth_error_app2 by lia. f_equal. lia.
Qed.

(** X3. An answer is shown stripped of the white space around it: with a
    200 reply whose [generated_text] is the string [s], the call returns
    [s.strip()] and the entry shows exactly that text (stripping it once
    more in [print_results] changes nothing), unless it is empty, in which
    case the entry shows the unavailable marker. *)
Theorem suggestion_is_rendered_stripped
        (E : env) (d : dict) (st : state) (resp : response) (body : dict) (s : string) :
  requests_post E (List.length (st_http st)) (request_of E d) = Ok resp ->
  status_code resp = 200 ->
  json resp = Ok (PyDict body) ->
  lookup "generated_text" body = Some (PyStr s) ->
  snd (get_llm_suggestion E (PyDict d) st) = Ok (Some (strip s))
  /\ snd (print_finding E (PyDict d) st) = Ok tt
  /\ nth_error (st_log (fst (print_finding E (PyDict d) st))) (List.length (st_log st) + 4)
     = Some (info ("Suggestion: "
                     ++ (if (strip s =? "")%string then "No suggestion available."
                         else strip s)
                     ++ nl)).
Proof.
  intros Hpost Hs Hj Hk.
  assert (Hsugg : response_suggestion (Ok resp) = Some (strip s)).
  { cbn. rewrite Hs, Hj, Hk. reflexivity. }
  split.
  - destruct (get_llm_suggestion_dict E d st) as (st' & -> & _).
    rewrite Hpost, Hsugg. reflexivity.
  - destruct (print_finding_dict E d st) as (st' & -> & Hlog & _).
    cbn [fst snd]. split; [reflexivity|].
    rewrite Hlog, nth_error_after. cbn [entry_records nth_error].
    unfold suggestion_line. rewrite Hpost, Hsugg. cbn [suggestion_text].
    destruct (strip s =? "")%string; cbn [negb]; [reflexivity|].
    rewrite strip_idempotent. reflexivity.
Qed.

Lemma suggestion_is_rendered_stripped_witness :
  lookup "generated_text" [("generated_text", PyStr ("  Use a vault." ++ nl))]
  = Some (PyStr ("  Use a vault." ++ nl))
  /\ nth_error (st_log (fst (print_finding padded_reply_env (PyDict sample_finding)
                                           initial_state))) 4
     = Some (info ("Suggestion: Use a vault." ++ nl)).
Proof.
  split; [reflexivity|].
  assert (Hpost : requests_post padded_reply_env (List.length (st_http initial_state))
                                (request_of padded_reply_env sample_finding)
                  = Ok padded_reply) by reflexivity.
  assert (Hs : status_code padded_reply = 200) by reflexivity.
  assert (Hj : json padded_reply
               = Ok (PyDict [("generated_text", PyStr ("  Use a vault." ++ nl))]))
    by reflexivity.
  assert (Hk : lookup "generated_text" [("generated_text", PyStr ("  Use a vault." ++ nl))]
               = Some (PyStr ("  Use a vault." ++ nl))) by reflexivity.
  destruct (suggestion_is_rendered_stripped
              padded_reply_env sample_finding initial_state padded_reply _ _
              Hpost Hs Hj Hk) as (_ & _ & Hline).
  exact Hline.
Defined.

(** X4. The report reads Bandit's keys only.  A finding that has none of
    [issue_severity], [issue_text], [filename] and [line_number], as every
    Semgrep finding does, is shown with [N/A] in every field, and the prompt
    sent for it names no issue, no file and no line. *)
Theorem finding_without_bandit_keys_reads_NA (E : env) (d : dict) (st : state) :
  lookup "issue_severity" d = None ->
  lookup "issue_text" d = None ->
  lookup "filename" d = None ->
  lookup "line_number" d = None ->
  exists st' call,
    print_finding E (PyDict d) st = (st', Ok tt)
    /\ st_log st'
       = (st_log st
            ++ [ info "Severity: N/A"; info "Issue: N/A"; info "File: N/A:N/A"; call;
                 suggestion_line E (List.length (st_http st)) d ])%list
    /\ st_http st'
       = (st_http st
            ++ [ {| req_url := REMOTE_MODEL_URL;
                    req_json :=
                      PyDict [("prompt",
                               PyStr "Given this security finding: N/A in file N/A at line N/A, generate a concise and correct security fix. Keep the response under 100 words.")];
                    req_timeout := None |} ])%list.
Proof.
  intros Hsev Hissue Hfile Hline.
  destruct (print_finding_dict E d st) as (st' & Hrun & Hlog & Hhttp & _).
  exists st'. eexists. split; [exact Hrun|].
  rewrite Hlog, Hhttp. unfold entry_records, request_of, prompt_of, prompt_template, slot.
  rewrite Hsev, Hissue, Hfile, Hline. split; reflexivity.
Qed.

Lemma finding_without_bandit_keys_reads_NA_witness :
  lookup "issue_text" semgrep_finding = None
  /\ exists st' call,
       print_finding sample_env (PyDict semgrep_finding) initial_state = (st', Ok tt)
       /\ st_log st'
          = [ info "Severity: N/A"; info "Issue: N/A"; info "File: N/A:N/A"; call;
              suggestion_line sample_env 0 semgrep_finding ].
Proof.
  split; [reflexivity|].
  destruct (finding_without_bandit_keys_reads_NA sample_env semgrep_finding initial_state)
    as (st' & call & Hrun & Hlog & _); try reflexivity.
  exists st', call. split; [exact Hrun|exact Hlog].
Defined.

(** ** The scan, beyond the claims *)

Lemma assoc_commands_supported (tool_name repo_path output_file : string)
      (argv : list string) :
  assoc tool_name (commands repo_path output_file) = Some argv ->
  (tool_name = "bandit"
   /\ argv = ["bandit"; "-r"; repo_path; "-f"; "json"; "-o"; output_file])
  \/ (tool_name = "semgrep"
      /\ argv = ["semgrep"; "--config=auto"; "--json"; "-o"; output_file; repo_path]).
Proof.
  unfold commands. cbn [assoc].
  destruct ("bandit" =? tool_name)%string eqn:Hb.
  - apply String.eqb_eq in Hb. intros [= <-]. left. split; [symmetry; exact Hb|reflexivity].
  - destruct ("semgrep" =? tool_name)%string eqn:Hs; [|discriminate].
    apply String.eqb_eq in Hs. intros [= <-]. right.
    split; [symmetry; exact Hs|reflexivity].
Qed.

Lemma assoc_commands_unsupported (tool_name repo_path output_file : string) :
  tool_name <> "bandit" -> tool_name <> "semgrep" ->
  assoc tool_name (commands repo_path output_file) = None.
Proof.
  intros Hb Hs. unfold commands. cbn [assoc].
  destruct ("bandit" =? tool_name)%string eqn:Eb;
    [apply String.eqb_eq in Eb; congruence|].
  destruct ("semgrep" =? tool_name)%string eqn:Es;
    [apply String.eqb_eq in Es; congruence|reflexivity].
Qed.

(** X5. A tool other than [bandit] and [semgrep] is refused before
    anything is run: the error is logged and [None] returned, with no
    process spawned, no clock read and no request issued. *)
Theorem unsupported_tool_spawns_nothing
        (E : env) (tool_name repo_path output_file : string) (st : state) :
  tool_name <> "bandit" -> tool_name <> "semgrep" ->
  let run := run_sast_tool E tool_name repo_path output_file st in
  snd run = Ok PyNone
  /\ st_log (fst run)
     = (st_log st ++ [ info ("Running " ++ tool_name ++ " on: " ++ repo_path);
                       error ("Unsupported SAST tool: " ++ tool_name) ])%list
  /\ st_procs (fst run) = st_procs st
  /\ st_clock (fst run) = st_clock st
  /\ st_http (fst run) = st_http st.
Proof.
  intros Hb Hs run. subst run. unfold run_sast_tool.
  rewrite (assoc_commands_unsupported _ _ _ Hb Hs). run. cbn.
  rewrite <- app_assoc. repeat split.
Qed.

Lemma unsupported_tool_spawns_nothing_witness :
  snd (run_sast_tool sample_env "trivy" "/repo" "/repo/out.json" initial_state) = Ok PyNone
  /\ st_procs (fst (run_sast_tool sample_env "trivy" "/repo" "/repo/out.json"
                                  initial_state)) = [].
Proof.
  assert (Hb : "trivy" <> "bandit") by discriminate.
  assert (Hs : "trivy" <> "semgrep") by discriminate.
  destruct (unsupported_tool_spawns_nothing
              sample_env "trivy" "/repo" "/repo/out.json" initial_state Hb Hs)
    as (Hret & _ & Hprocs & _).
  split; [exact Hret|exact Hprocs].
Defined.

(** X6. A supported tool is spawned exactly once, whatever the spawn or the
    artifact turn out to be, and its command line starts with the tool's
    name, passes the repository path and passes the output file right after
    [-o]: the file the orchestrator reads is the file the tool was told to
    write. *)
Theorem scanner_is_told_where_to_write
        (E : env) (tool_name repo_path output_file : string)
        (argv : list string) (st : state) :
  assoc tool_name (commands repo_path output_file) = Some argv ->
  st_procs (fst (run_sast_tool E tool_name repo_path output_file st))
  = (st_procs st ++ [argv])%list
  /\ hd_error argv = Some tool_name
  /\ In repo_path argv
  /\ exists before after, argv = (before ++ "-o" :: output_file :: after)%list.
Proof.
  intros Ha.
  destruct (run_sast_tool_spec E tool_name repo_path output_file st)
    as (st' & -> & _ & _ & Hprocs).
  cbn [fst]. rewrite Hprocs. unfold spawned. rewrite Ha.
  split; [reflexivity|].
  destruct (assoc_commands_supported _ _ _ _ Ha) as [(-> & ->)|(-> & ->)].
  - split; [reflexivity|]. split; [cbn; auto|].
    exists ["bandit"; "-r"; repo_path; "-f"; "json"], []. reflexivity.
  - split; [reflexivity|]. split; [cbn; auto 10|].
    exists ["semgrep"; "--config=auto"; "--json"], [repo_path]. reflexivity.
Qed.

Lemma scanner_is_told_where_to_write_witness :
  st_procs (fst (run_sast_tool tool_missing_env "semgrep" "/repo" "/repo/out.json"
                               initial_state))
  = [ ["semgrep"; "--config=auto"; "--json"; "-o"; "/repo/out.json"; "/repo"] ].
Proof.
  assert (Ha : assoc "semgrep" (commands "/repo" "/repo/out.json")
               = Some ["semgrep"; "--config=auto"; "--json"; "-o"; "/repo/out.json"; "/repo"])
    by reflexivity.
  destruct (scanner_is_told_where_to_write
              tool_missing_env "semgrep" "/repo" "/repo/out.json" _ initial_state Ha)
    as (Hprocs & _).
  exact Hprocs.
Defined.

(** X7. When the spawn itself raises, the artifact is never looked at: the
    scan returns [None] even if a well-formed report lies at the output
    path, after one clock reading and one error record, which is the "not
    found" one for a [FileNotFoundError] and the "Error running" one, with
    the exception's text, for anything else. *)
Theorem failed_spawn_ignores_artifact
        (E : env) (tool_name repo_path output_file : string)
        (argv : list string) (e : exn) (st : state) :
  assoc tool_name (commands repo_path output_file) = Some argv ->
  subprocess_run E argv = Raise e ->
  let run := run_sast_tool E tool_name repo_path output_file st in
  snd run = Ok PyNone
  /\ st_log (fst run)
     = (st_log st
          ++ [ info ("Running " ++ tool_name ++ " on: " ++ repo_path);
               if is_FileNotFoundError e
               then error ("Error: '" ++ tool_name ++ "' not found. Install it before running.")
               else error ("Error running " ++ tool_name ++ ": " ++ exn_str e) ])%list
  /\ st_clock (fst run) = S (st_clock st).
Proof.
  intros Ha Hr run. subst run. unfold run_sast_tool. rewrite Ha. run. rewrite Hr.
  cbn [dispatch]. destruct (is_FileNotFoundError e); run; cbn;
    rewrite <- app_assoc; repeat split.
Qed.

Lemma failed_spawn_ignores_artifact_witness :
  path_exists spawn_denied_env "/repo/out.json" = true
  /\ json_load_file spawn_denied_env "/repo/out.json" = Ok sample_report
  /\ snd (run_sast_tool spawn_denied_env "bandit" "/repo" "/repo/out.json" initial_state)
     = Ok PyNone.
Proof.
  split; [reflexivity|]. split; [reflexivity|].
  assert (Ha : assoc "bandit" (commands "/repo" "/repo/out.json")
               = Some ["bandit"; "-r"; "/repo"; "-f"; "json"; "-o"; "/repo/out.json"])
    by reflexivity.
  assert (Hr : subprocess_run spawn_denied_env
                 ["bandit"; "-r"; "/repo"; "-f"; "json"; "-o"; "/repo/out.json"]
               = Raise permission_denied) by reflexivity.
  destruct (failed_spawn_ignores_artifact
              spawn_denied_env "bandit" "/repo" "/repo/out.json" _ _ initial_state Ha Hr)
    as (Hret & _).
  exact Hret.
Defined.

(** X8. A [FileNotFoundError] raised while the artifact is opened, after
    the scanner ran and the file was seen to exist, is caught by the clause
    meant for a missing executable: the log says the tool was not found. *)
Theorem vanished_artifact_is_reported_as_missing_tool
        (E : env) (tool_name repo_path output_file : string)
        (argv : list string) (code : Z) (e : exn) (st : state) :
  assoc tool_name (commands repo_path output_file) = Some argv ->
  subprocess_run E argv = Ok code ->
  path_exists E output_file = true ->
  json_load_file E output_file = Raise e ->
  is_FileNotFoundError e = true ->
  let run := run_sast_tool E tool_name repo_path output_file st in
  snd run = Ok PyNone
  /\ st_log (fst run)
     = (st_log st
          ++ [ running_record tool_name repo_path;
               completed_record E tool_name (st_clock st);
               error ("Error: '" ++ tool_name
                        ++ "' not found. Install it before running.") ])%list.
Proof.
  intros Ha Hr Hex Hl He run. subst run.
  destruct (run_sast_tool_spec E tool_name repo_path output_file st)
    as (st' & -> & Hlog & _).
  cbn [fst snd]. rewrite Hlog. unfold scan_outcome_of, scan_log, handled_record.
  rewrite Ha, Hr, Hex, Hl, He. split; reflexivity.
Qed.

Lemma vanished_artifact_is_reported_as_missing_tool_witness :
  subprocess_run artifact_vanishes_env
    ["bandit"; "-r"; "/repo"; "-f"; "json"; "-o"; "/repo/out.json"] = Ok 0
  /\ nth_error (st_log (fst (run_sast_tool artifact_vanishes_env "bandit" "/repo"
                                           "/repo/out.json" initial_state))) 2
     = Some (error "Error: 'bandit' not found. Install it before running.").
Proof.
  split; [reflexivity|].
  assert (Ha : assoc "bandit" (commands "/repo" "/repo/out.json")
               = Some ["bandit"; "-r"; "/repo"; "-f"; "json"; "-o"; "/repo/out.json"])
    by reflexivity.
  destruct (vanished_artifact_is_reported_as_missing_tool
              artifact_vanishes_env "bandit" "/repo" "/repo/out.json" _ 0 _ initial_state
              Ha eq_refl eq_refl eq_refl eq_refl) as (_ & Hlog).
  rewrite Hlog. reflexivity.
Defined.

(** ** The clone *)

(** X9. [clone_repo] tries the clone once.  It returns [True] exactly when
    the clone returned and [False] exactly when it raised a
    [GitCommandError]; any other exception is not handled and leaves the
    function, the log holding the announcement only. *)
Theorem clone_repo_outcomes (E : env) (url dir : string) (st : state) :
  let run := clone_repo E url dir st in
  st_clones (fst run) = (st_clones st ++ [(url, dir)])%list
  /\ (clone_from E url dir = Ok tt -> snd run = Ok true)
  /\ (forall e, clone_from E url dir = Raise e -> is_GitCommandError e = true ->
                snd run = Ok false)
  /\ (forall e, clone_from E url dir = Raise e -> is_GitCommandError e = false ->
                snd run = Raise e
                /\ st_log (fst run) = (st_log st ++ [cloning_record url dir])%list)
  /\ (snd run = Ok true -> clone_from E url dir = Ok tt).
Proof.
  intros run. subst run. unfold clone_repo. run.
  destruct (clone_from E url dir) as [[]|e];
    [|cbn [dispatch]; destruct (is_GitCommandError e) eqn:He; run];
    cbn [fst snd st_log st_clones];
    repeat match goal with |- _ /\ _ => split end; intros;
    repeat match goal with H : Raise _ = Raise _ |- _ => injection H as <- end;
    try discriminate; try congruence; try reflexivity.
  split; reflexivity.
Qed.

Lemma clone_repo_outcomes_witness :
  snd (clone_repo clone_fails_env "https://nowhere.invalid/x.git" "/tmp/w" initial_state)
  = Ok false
  /\ snd (clone_repo sample_env "https://example.org/acme/app.git" "/tmp/w" initial_state)
     = Ok true.
Proof.
  split.
  - destruct (clone_repo_outcomes clone_fails_env "https://nowhere.invalid/x.git" "/tmp/w"
                                  initial_state) as (_ & _ & Hgit & _).
    eapply Hgit; reflexivity.
  - destruct (clone_repo_outcomes sample_env "https://example.org/acme/app.git" "/tmp/w"
                                  initial_state) as (_ & Hok & _).
    apply Hok; reflexivity.
Defined.

(** ** The report, beyond the claims *)

(** X10. [print_results] ends with the one line "No results from <tool>."
    and asks the service nothing when the scan value is falsy or holds no
    ["results"]: an object without that key, a list without that string,
    a string that does not contain it. *)
Theorem results_without_key_render_summary
        (E : env) (tool_name : string) (results : value) (st : state) :
  truthy results = false \/ py_contains "results" results = Ok false ->
  let run := print_results E tool_name results st in
  snd run = Ok tt
  /\ st_log (fst run) = (st_log st ++ [info ("No results from " ++ tool_name ++ ".")])%list
  /\ st_http (fst run) = st_http st.
Proof.
  intros H run. subst run. unfold print_results.
  destruct (truthy results) eqn:Ht.
  - destruct H as [H|H]; [discriminate|]. rewrite H. run. cbn. repeat split.
  - run. cbn. repeat split.
Qed.

Lemma results_without_key_render_summary_witness :
  st_log (fst (print_results sample_env "bandit"
                             (PyDict [("errors", PyList []); ("metrics", PyDict [])])
                             initial_state))
  = [info "No results from bandit."].
Proof.
  destruct (results_without_key_render_summary
              sample_env "bandit" (PyDict [("errors", PyList []); ("metrics", PyDict [])])
              initial_state) as (_ & Hlog & _).
  - right. reflexivity.
  - rewrite Hlog. reflexivity.
Defined.

Lemma print_finding_non_object (E : env) (v : value) (st : state) :
  (forall d, v <> PyDict d) ->
  print_finding E v st = (st, Raise (attribute_error v "get")).
Proof.
  intros Hv. destruct v; try (exfalso; eapply Hv; reflexivity); reflexivity.
Qed.

Lemma for_each_print_finding_abort (E : env) (v : value) (rest : list value) :
  (forall d, v <> PyDict d) ->
  forall (ds : list dict) (st : state),
  exists st' calls,
    for_each (print_finding E) (map PyDict ds ++ v :: rest) st
    = (st', Raise (attribute_error v "get"))
    /\ List.length calls = List.length ds
    /\ st_log st'
       = (st_log st ++ concat (report_blocks E (List.length (st_http st)) ds calls))%list
    /\ st_http st' = (st_http st ++ map (request_of E) ds)%list.
Proof.
  intros Hv. induction ds as [|d ds IH]; intros st.
  - exists st, []. cbn [map app for_each]. unfold bind.
    rewrite (print_finding_non_object E v st Hv). cbn. rewrite !app_nil_r. repeat split.
  - cbn [map app for_each]. unfold bind at 1.
    destruct (print_finding_dict E d st) as (st1 & -> & Hlog & Hhttp & _).
    destruct (IH st1) as (st2 & calls & Hrun2 & Hlen & Hlog2 & Hhttp2).
    exists st2. eexists (_ :: calls).
    split; [exact Hrun2|]. split; [cbn; congruence|].
    rewrite Hlog2, Hhttp2, Hlog, Hhttp, length_app. cbn [List.length].
    replace (List.length (st_http st) + 1)%nat with (S (List.length (st_http st))) by lia.
    cbn [report_blocks concat map]. rewrite <- !app_assoc. split; reflexivity.
Qed.

Lemma print_results_malformed
        (E : env) (tool_name : string) (rs : dict) (ds : list dict)
        (v : value) (rest : list value) (st : state) :
  lookup "results" rs = Some (PyList (map PyDict ds ++ v :: rest)) ->
  (forall d, v <> PyDict d) ->
  exists st' calls,
    print_results E tool_name (PyDict rs) st = (st', Raise (attribute_error v "get"))
    /\ List.length calls = List.length ds
    /\ st_log st'
       = (st_log st ++ report_header E tool_name
            :: concat (report_blocks E (List.length (st_http st)) ds calls))%list
    /\ st_http st' = (st_http st ++ map (request_of E) ds)%list.
Proof.
  intros Hl Hv.
  assert (Ht : truthy (PyDict rs) = true) by (destruct rs; [discriminate|reflexivity]).
  unfold print_results. rewrite Ht. unfold py_contains, py_getitem, has_key. rewrite Hl.
  cbv [bind lift logging_info logging py_iter].
  cbn [st_log st_clock st_clones st_procs st_http].
  match goal with
  | |- context [for_each (print_finding E) _ ?s] =>
      destruct (for_each_print_finding_abort E v rest Hv ds s)
        as (st' & calls & Hrun & Hlen & Hlog & Hhttp)
  end.
  cbn [st_log st_clock st_clones st_procs st_http] in *.
  exists st', calls. rewrite Hrun, Hlog, Hhttp, <- app_assoc. repeat split; assumption.
Qed.

(** X11. A finding that is not an object aborts the report.  The findings
    before it are rendered in full and their requests issued;
    [print_results] then raises the attribute error of the offending item,
    and neither that item nor any finding after it is rendered or sent to
    the service. *)
Theorem malformed_finding_aborts_report
        (E : env) (tool_name : string) (rs : dict) (ds : list dict)
        (v : value) (rest : list value) (st : state) :
  lookup "results" rs = Some (PyList (map PyDict ds ++ v :: rest)) ->
  (forall d, v <> PyDict d) ->
  exists st' calls,
    print_results E tool_name (PyDict rs) st = (st', Raise (attribute_error v "get"))
    /\ List.length calls = List.length ds
    /\ st_log st'
       = (st_log st ++ report_header E tool_name
            :: concat (report_blocks E (List.length (st_http st)) ds calls))%list
    /\ st_http st' = (st_http st ++ map (request_of E) ds)%list.
Proof.
  intros Hl Hv. exact (print_results_malformed E tool_name rs ds v rest st Hl Hv).
Qed.

Lemma malformed_finding_aborts_report_witness :
  exists st',
    print_results sample_env "bandit" malformed_report initial_state
    = (st', Raise (attribute_error (PyStr "oops") "get"))
    /\ st_http st' = [request_of sample_env sample_finding].
Proof.
  assert (Hl : lookup "results" [("results", PyList [PyDict sample_finding; PyStr "oops";
                                                      PyDict file_level_finding])]
               = Some (PyList (map PyDict [sample_finding]
                                 ++ PyStr "oops" :: [PyDict file_level_finding])))
    by reflexivity.
  assert (Hv : forall d, PyStr "oops" <> PyDict d) by discriminate.
  destruct (malformed_finding_aborts_report
              sample_env "bandit" _ [sample_finding] (PyStr "oops")
              [PyDict file_level_finding] initial_state Hl Hv)
    as (st' & calls & Hrun & _ & _ & Hhttp).
  exists st'. split; [exact Hrun|exact Hhttp].
Defined.

Lemma length_concat_report_blocks (E : env) (ds : list dict) :
  forall (calls : list log_record) (n : nat),
    List.length calls = List.length ds ->
    List.length (concat (report_blocks E n ds calls)) = (5 * List.length ds)%nat.
Proof.
  induction ds as [|d ds IH]; intros [|c calls] n Hlen; cbn in Hlen; try discriminate;
    [reflexivity|].
  cbn [report_blocks concat]. rewrite length_app, (IH calls (S n)) by congruence.
  cbn [entry_records List.length]. lia.
Qed.

(** X12. A report over [k] findings adds [1 + 5 k] records to the log, the
    header and five records per finding, and issues [k] requests. *)
Theorem report_size
        (E : env) (tool_name : string) (results : value) (ds : list dict) (st : state) :
  scan_findings results = Some ds ->
  let st' := fst (print_results E tool_name results st) in
  List.length (st_log st') = (List.length (st_log st) + 1 + 5 * List.length ds)%nat
  /\ List.length (st_http st') = (List.length (st_http st) + List.length ds)%nat.
Proof.
  intros H st'. subst st'.
  destruct (print_results_findings E tool_name results ds st H)
    as (st1 & calls & -> & Hlen & Hlog & Hhttp & _).
  cbn [fst]. rewrite Hlog, Hhttp, !length_app, length_map. cbn [List.length].
  rewrite (length_concat_report_blocks E ds calls _ Hlen). lia.
Qed.

Lemma report_size_witness :
  scan_findings sample_report = Some [sample_finding; file_level_finding]
  /\ List.length (st_log (fst (print_results first_call_refused_env "bandit" sample_report
                                             initial_state))) = 11%nat.
Proof.
  assert (Hscan : scan_findings sample_report = Some [sample_finding; file_level_finding])
    by reflexivity.
  split; [exact Hscan|].
  destruct (report_size first_call_refused_env "bandit" sample_report
                        [sample_finding; file_level_finding] initial_state Hscan)
    as (Hlog & _).
  exact Hlog.
Defined.

(** ** The whole run, beyond the claims *)

(** X13. A report that decodes to a falsy value, such as an empty object,
    an empty list, zero or [null], is not told apart from a failed scan:
    the run closes with the same "No security findings detected." line,
    issues no request and exits with status 0. *)
Theorem falsy_artifact_reads_as_no_findings
        (E : env) (args : arguments) (v : value) (st : state) :
  clone_from E (repo_url args) (mkdtemp E) = Ok tt ->
  scan_outcome_of E (tool args) (mkdtemp E) (output_path E) = Scanned v ->
  truthy v = false ->
  let run := main E args st in
  snd run = Ok tt /\ exit_status (snd run) = 0
  /\ st_log (fst run)
     = (st_log st
          ++ [cloning_record (repo_url args) (mkdtemp E); info "Cloning successful."]
          ++ scan_log E (tool args) (mkdtemp E) (output_path E) (st_clock st)
          ++ [info (nl ++ "No security findings detected.")])%list
  /\ st_http (fst run) = st_http st.
Proof.
  intros Hclone Hscan Hv run. subst run.
  destruct (main_after_clone E args st Hclone) as (st2 & Hlog2 & Hhttp2 & _ & ->).
  rewrite Hscan. cbn [returned_value]. rewrite Hv.
  unfold logging_info, logging. cbn [fst snd exit_status st_log st_http].
  rewrite Hlog2, Hhttp2, <- !app_assoc. auto.
Qed.

Lemma falsy_artifact_reads_as_no_findings_witness :
  scan_outcome_of empty_object_env "bandit" (mkdtemp empty_object_env)
                  (output_path empty_object_env) = Scanned (PyDict [])
  /\ nth_error (st_log (fst (main empty_object_env sample_args initial_state))) 4
     = Some (info (nl ++ "No security findings detected.")).
Proof.
  assert (Hscan : scan_outcome_of empty_object_env (tool sample_args)
                                  (mkdtemp empty_object_env) (output_path empty_object_env)
                  = Scanned (PyDict [])) by (vm_compute; reflexivity).
  split; [exact Hscan|].
  destruct (falsy_artifact_reads_as_no_findings
              empty_object_env sample_args (PyDict []) initial_state eq_refl Hscan eq_refl)
    as (_ & _ & Hlog & _).
  rewrite Hlog. vm_compute. reflexivity.
Defined.

(** X14. A report with a finding that is not an object ends the process
    with status 1: the attribute error leaves [print_results] and [main]
    unhandled, after the requests of the findings before it were issued. *)
Theorem malformed_finding_exits_with_status_one
        (E : env) (args : arguments) (rs : dict) (ds : list dict)
        (v : value) (rest : list value) (st : state) :
  clone_from E (repo_url args) (mkdtemp E) = Ok tt ->
  scan_outcome_of E (tool args) (mkdtemp E) (output_path E) = Scanned (PyDict rs) ->
  lookup "results" rs = Some (PyList (map PyDict ds ++ v :: rest)) ->
  (forall d, v <> PyDict d) ->
  let run := main E args st in
  snd run = Raise (attribute_error v "get")
  /\ exit_status (snd run) = 1
  /\ st_http (fst run) = (st_http st ++ map (request_of E) ds)%list.
Proof.
  intros Hclone Hscan Hl Hv run. subst run.
  destruct (main_after_clone E args st Hclone) as (st2 & _ & Hhttp2 & _ & ->).
  rewrite Hscan. cbn [returned_value].
  assert (Ht : truthy (PyDict rs) = true) by (destruct rs; [discriminate|reflexivity]).
  rewrite Ht.
  destruct (print_results_malformed E (tool args) rs ds v rest st2 Hl Hv)
    as (st' & calls & -> & _ & _ & Hhttp).
  cbn [fst snd exit_status]. rewrite Hhttp, Hhttp2. repeat split.
Qed.

Lemma malformed_finding_exits_with_status_one_witness :
  exit_status (snd (main malformed_report_env sample_args initial_state)) = 1
  /\ List.length (st_http (fst (main malformed_report_env sample_args initial_state)))
     = 1%nat.
Proof.
  assert (Hscan : scan_outcome_of malformed_report_env (tool sample_args)
                                  (mkdtemp malformed_report_env)
                                  (output_path malformed_report_env)
                  = Scanned (PyDict [("results",
                                      PyList [PyDict sample_finding; PyStr "oops";
                                              PyDict file_level_finding])]))
    by (vm_compute; reflexivity).
  assert (Hl : lookup "results" [("results", PyList [PyDict sample_finding; PyStr "oops";
                                                      PyDict file_level_finding])]
               = Some (PyList (map PyDict [sample_finding]
                                 ++ PyStr "oops" :: [PyDict file_level_finding])))
    by reflexivity.
  assert (Hv : forall d, PyStr "oops" <> PyDict d) by discriminate.
  destruct (malformed_finding_exits_with_status_one
              malformed_report_env sample_args _ [sample_finding] (PyStr "oops")
              [PyDict file_level_finding] initial_state eq_refl Hscan Hl Hv)
    as (_ & Hexit & Hhttp).
  split; [exact Hexit|]. rewrite Hhttp. reflexivity.
Defined.

Lemma for_each_print_finding_procs (E : env) (l : list value) :
  forall st, st_procs (fst (for_each (print_finding E) l st)) = st_procs st.
Proof.
  induction l as [|x l IH]; intros st; [reflexivity|].
  cbn [for_each]. unfold bind.
  destruct x as [ | | | | | |d];
    try (rewrite print_finding_non_object by discriminate; reflexivity).
  destruct (print_finding_dict E d st) as (st1 & -> & _ & _ & Hprocs & _).
  rewrite IH. exact Hprocs.
Qed.

Lemma print_results_procs (E : env) (tool_name : string) (results : value) (st : state) :
  st_procs (fst (print_results E tool_name results st)) = st_procs st.
Proof.
  unfold print_results. destruct (truthy results); [|reflexivity].
  run. destruct (py_contains "results" results) as [[|]|e]; try reflexivity.
  destruct (py_getitem results "results") as [items|e]; [|reflexivity].
  destruct (py_iter items) as [findings|e]; [|reflexivity].
  rewrite for_each_print_finding_procs. reflexivity.
Qed.

Lemma output_path_in_workspace (E : env) : prefix (mkdtemp E) (output_path E) = true.
Proof.
  unfold output_path, os_path_join. cbn [prefix].
  destruct (ascii_dec "/" "s"); [discriminate|].
  destruct ((mkdtemp E =? "")%string || ends_with_slash (mkdtemp E)); apply prefix_app.
Qed.

(** X15. Once the clone has succeeded, [main] spawns the scanner exactly
    once, however the rest of the run ends, on the temporary directory the
    repository was cloned into and with an output file that lies inside
    that directory. *)
Theorem main_scans_inside_the_clone
        (E : env) (args : arguments) (argv : list string) (st : state) :
  clone_from E (repo_url args) (mkdtemp E) = Ok tt ->
  assoc (tool args) (commands (mkdtemp E) (output_path E)) = Some argv ->
  st_procs (fst (main E args st)) = (st_procs st ++ [argv])%list
  /\ In (mkdtemp E) argv
  /\ In (output_path E) argv
  /\ prefix (mkdtemp E) (output_path E) = true.
Proof.
  intros Hclone Ha.
  destruct (main_after_clone E args st Hclone) as (st2 & _ & _ & Hprocs & ->).
  split.
  - destruct (truthy _); [rewrite print_results_procs|cbn];
      rewrite Hprocs; unfold spawned; rewrite Ha; reflexivity.
  - destruct (assoc_commands_supported _ _ _ _ Ha) as [(_ & ->)|(_ & ->)];
      (split; [cbn; auto 10|split; [cbn; auto 10|apply output_path_in_workspace]]).
Qed.

Lemma main_scans_inside_the_clone_witness :
  st_procs (fst (main malformed_report_env sample_args initial_state))
  = [ ["bandit"; "-r"; "/tmp/tmpk3s9"; "-f"; "json"; "-o"; "/tmp/tmpk3s9/sast_results.json"] ].
Proof.
  assert (Ha : assoc (tool sample_args)
                     (commands (mkdtemp malformed_report_env)
                               (output_path malformed_report_env))
               = Some ["bandit"; "-r"; "/tmp/tmpk3s9"; "-f"; "json"; "-o";
                       "/tmp/tmpk3s9/sast_results.json"]) by (vm_compute; reflexivity).
  destruct (main_scans_inside_the_clone malformed_report_env sample_args _ initial_state
                                        eq_refl Ha) as (Hprocs & _).
  exact Hprocs.
Defined.

(** ** The remediation service, beyond the claims *)

Lemma generate_text_cases (E : env) (request : GenerateRequest) (st : state) :
  let received := info ("Received prompt: " ++ str_take 100 (prompt request) ++ "...") in
  let backend := requests_post E (List.length (st_http st)) (ollama_request request) in
  let run := generate_text E request st in
  (exists rest, st_log (fst run) = (st_log st ++ received :: rest)%list)
  /\ (forall e, snd run = Raise e ->
                (exists d, e = http_exception 500 d)
                \/ e = http_exception 503 "Ollama service unavailable")
  /\ (forall e, backend = Raise e ->
                snd run
                = Raise (if is_RequestException e
                         then http_exception 503 "Ollama service unavailable"
                         else http_exception 500 ("Internal server error: " ++ exn_str e))
                /\ st_log (fst run)
                   = (st_log st
                        ++ [ received;
                             if is_RequestException e
                             then error ("Error connecting to Ollama: " ++ exn_str e)
                             else error ("Unexpected error in generate_text: "
                                           ++ exn_str e) ])%list)
  /\ (forall resp e, backend = Ok resp -> status_code resp = 200 -> json resp = Raise e ->
                     snd run
                     = Raise (if is_RequestException e
                              then http_exception 503 "Ollama service unavailable"
                              else http_exception 500
                                     ("Internal server error: " ++ exn_str e))).
Proof.
  intros received backend run. subst received backend run.
  unfold generate_text. run. fold (ollama_request request).
  destruct (requests_post E (List.length (st_http st)) (ollama_request request))
    as [resp|e].
  - destruct (status_code resp =? 200) eqn:Hs; cbn [negb].
    + destruct (json resp) as [data|e] eqn:Hj.
      * destruct (py_get data "response" (PyStr "")) as [g|e].
        -- destruct (py_len g) as [n|e].
           ++ destruct (py_str_add (prompt request) g) as [full|e].
              ** cbn. split; [rewrite <- ?app_assoc; eexists; reflexivity|].
                 repeat split; intros; congruence.
              ** destruct (is_RequestException e); cbn;
                   (split; [rewrite <- ?app_assoc; eexists; reflexivity|]);
                   (split; [intros ? [= <-]; eauto|]);
                   split; intros; congruence.
           ++ destruct (is_RequestException e); cbn;
                (split; [rewrite <- ?app_assoc; eexists; reflexivity|]);
                (split; [intros ? [= <-]; eauto|]);
                split; intros; congruence.
        -- destruct (is_RequestException e); cbn;
             (split; [rewrite <- ?app_assoc; eexists; reflexivity|]);
             (split; [intros ? [= <-]; eauto|]);
             split; intros; congruence.
      * destruct (is_RequestException e) eqn:He; cbn;
          (split; [rewrite <- ?app_assoc; eexists; reflexivity|]);
          (split; [intros ? [= <-]; eauto|]);
          (split; [intros; congruence|]);
          intros resp' e' [= <-] _ Hj'; rewrite Hj in Hj'; injection Hj' as <-;
          rewrite He; reflexivity.
    + cbn. split; [rewrite <- ?app_assoc; eexists; reflexivity|].
      split; [intros ? [= <-]; eauto|].
      split; [intros; congruence|].
      intros resp' e' [= <-] Hs'. rewrite Hs' in Hs. discriminate.
  - destruct (is_RequestException e) eqn:He; cbn;
      (split; [rewrite <- ?app_assoc; eexists; reflexivity|]);
      (split; [intros ? [= <-]; eauto|]);
      (split; [|intros; congruence]);
      intros e' [= <-]; rewrite He, <- app_assoc; split; reflexivity.
Qed.

(** X16. [POST /generate] fails in two ways only: whatever the model
    runtime does, an exception that leaves [generate_text] is an
    [HTTPException] with status 500 or the [HTTPException] with status 503
    and detail "Ollama service unavailable". *)
Theorem generate_text_fails_with_500_or_503
        (E : env) (request : GenerateRequest) (st : state) (e : exn) :
  snd (generate_text E request st) = Raise e ->
  (exists d, e = http_exception 500 d)
  \/ e = http_exception 503 "Ollama service unavailable".
Proof.
  destruct (generate_text_cases E request st) as (_ & H & _). apply H.
Qed.

Lemma generate_text_fails_with_500_or_503_witness :
  (exists d, http_exception 503 "Ollama service unavailable" = http_exception 500 d)
  \/ http_exception 503 "Ollama service unavailable"
     = http_exception 503 "Ollama service unavailable".
Proof.
  apply (generate_text_fails_with_500_or_503
           ollama_down_env (GenerateRequest_default "Fix this:") initial_state).
  vm_compute. reflexivity.
Defined.

(** X17. The status of a failure follows the class of the exception that
    caused it.  When the call to the model runtime raises, or when the
    runtime answers 200 with a body that does not decode, the service
    replies 503 if the exception belongs to [requests]' own family (a
    refused connection, a timeout, [requests]' JSON decoding error) and 500
    with the exception's text otherwise; a call that raised is logged
    once. *)
Theorem failure_status_follows_exception_class
        (E : env) (request : GenerateRequest) (st : state) :
  let backend := requests_post E (List.length (st_http st)) (ollama_request request) in
  let run := generate_text E request st in
  let reply (e : exn) :=
    Raise (if is_RequestException e
           then http_exception 503 "Ollama service unavailable"
           else http_exception 500 ("Internal server error: " ++ exn_str e)) in
  (forall e, backend = Raise e ->
             snd run = reply e
             /\ st_log (fst run)
                = (st_log st
                     ++ [ info ("Received prompt: " ++ str_take 100 (prompt request) ++ "...");
                          if is_RequestException e
                          then error ("Error connecting to Ollama: " ++ exn_str e)
                          else error ("Unexpected error in generate_text: "
                                        ++ exn_str e) ])%list)
  /\ (forall resp e,
         backend = Ok resp -> status_code resp = 200 -> json resp = Raise e ->
         snd run = reply e).
Proof.
  intros backend run reply.
  destruct (generate_text_cases E request st) as (_ & _ & H1 & H2).
  split; [exact H1|exact H2].
Qed.

Lemma failure_status_follows_exception_class_witness :
  snd (generate_text ollama_down_env (GenerateRequest_default "Fix this:") initial_state)
  = Raise (http_exception 503 "Ollama service unavailable").
Proof.
  destruct (failure_status_follows_exception_class
              ollama_down_env (GenerateRequest_default "Fix this:") initial_state)
    as (Hraise & _).
  destruct (Hraise connection_refused eq_refl) as (Hret & _).
  exact Hret.
Defined.

(** X18. An error status of the model runtime reaches the client as a 500
    whose detail is not the one given where the error is detected: the
    [HTTPException] raised inside the [try] is caught by the handler's own
    [except Exception] clause, which logs a second error and raises a new
    500 that wraps the text of the first.  The body of the runtime's
    answer is not decoded. *)
Theorem backend_error_is_rewrapped
        (E : env) (request : GenerateRequest) (st : state) (resp : response) :
  requests_post E (List.length (st_http st)) (ollama_request request) = Ok resp ->
  status_code resp <> 200 ->
  let inner := http_exception 500 "Error communicating with Ollama API" in
  let run := generate_text E request st in
  snd run = Raise (http_exception 500 ("Internal server error: " ++ exn_str inner))
  /\ st_log (fst run)
     = (st_log st
          ++ [ info ("Received prompt: " ++ str_take 100 (prompt request) ++ "...");
               error ("Ollama API error: " ++ str_of_int (status_code resp)
                        ++ " - " ++ text resp);
               error ("Unexpected error in generate_text: " ++ exn_str inner) ])%list.
Proof.
  intros Hb Hs inner run. subst inner run. apply Z.eqb_neq in Hs.
  unfold generate_text. run. fold (ollama_request request).
  rewrite Hb, Hs. cbn. rewrite <- !app_assoc. split; reflexivity.
Qed.

Lemma backend_error_is_rewrapped_witness :
  status_code ollama_error_reply = 404
  /\ snd (generate_text ollama_error_env (GenerateRequest_default "Fix this:") initial_state)
     = Raise (http_exception 500
                ("Internal server error: "
                   ++ exn_str (http_exception 500 "Error communicating with Ollama API"))).
Proof.
  split; [reflexivity|].
  assert (Hs : status_code ollama_error_reply <> 200) by discriminate.
  destruct (backend_error_is_rewrapped
              ollama_error_env (GenerateRequest_default "Fix this:") initial_state
              ollama_error_reply eq_refl Hs) as (Hret & _).
  exact Hret.
Defined.

(** X19. A [response] that is not a string is never coerced: the service
    replies 500.  For [null], a number or a boolean the failure is the
    length computation; a list or an object gets its length logged first
    and fails at the concatenation. *)
Theorem non_string_response_is_a_500
        (E : env) (request : GenerateRequest) (st : state)
        (resp : response) (data : dict) (v : value) :
  requests_post E (List.length (st_http st)) (ollama_request request) = Ok resp ->
  status_code resp = 200 ->
  json resp = Ok (PyDict data) ->
  lookup "response" data = Some v ->
  (forall s, v <> PyStr s) ->
  let run := generate_text E request st in
  (exists d, snd run = Raise (http_exception 500 ("Internal server error: " ++ d)))
  /\ (forall n, py_len v = Ok n ->
                nth_error (st_log (fst run)) (List.length (st_log st) + 1)
                = Some (info ("Generated response of length " ++ str_of_int (Z.of_nat n)))).
Proof.
  intros Hb Hs Hj Hl Hv run. subst run.
  unfold generate_text. run. fold (ollama_request request).
  rewrite Hb, Hs. cbn [Z.eqb Pos.eqb negb]. rewrite Hj. cbn [py_get]. rewrite Hl.
  destruct v; try (exfalso; eapply Hv; reflexivity); cbn;
    (split; [eauto|]); intros n0 [= <-];
    rewrite <- !app_assoc, nth_error_after; reflexivity.
Qed.

Lemma non_string_response_is_a_500_witness :
  exists d,
    snd (generate_text ollama_list_env (GenerateRequest_default "Fix this:") initial_state)
    = Raise (http_exception 500 ("Internal server error: " ++ d)).
Proof.
  assert (Hv : forall s, PyList [PyStr "a"; PyStr "b"] <> PyStr s) by discriminate.
  destruct (non_string_response_is_a_500
              ollama_list_env (GenerateRequest_default "Fix this:") initial_state
              ollama_list_reply [("response", PyList [PyStr "a"; PyStr "b"])]
              (PyList [PyStr "a"; PyStr "b"]) eq_refl eq_refl eq_refl eq_refl Hv)
    as (Hret & _).
  exact Hret.
Defined.

Lemma length_append (s t : string) :
  String.length (s ++ t) = (String.length s + String.length t)%nat.
Proof. induction s as [|c s IH]; cbn; [reflexivity|]. rewrite IH. reflexivity. Qed.

Lemma length_substring_0 (n : nat) :
  forall s, String.length (substring 0 n s) = Nat.min n (String.length s).
Proof.
  induction n as [|n IH]; intros [|c s]; cbn; try reflexivity.
  rewrite IH. reflexivity.
Qed.

Lemma prefix_substring_0 (n : nat) : forall s, prefix (substring 0 n s) s = true.
Proof.
  induction n as [|n IH]; intros [|c s]; cbn; try reflexivity.
  destruct (ascii_dec c c); [apply IH|congruence].
Qed.

(** X20. Every call of [generate_text] first logs the prompt it received,
    cut to its first 100 characters: what is shown is a prefix of the
    prompt of length [min(100, len(prompt))], so the record never exceeds
    120 characters however long the prompt is. *)
Theorem received_prompt_is_logged_truncated
        (E : env) (request : GenerateRequest) (st : state) :
  let shown := str_take 100 (prompt request) in
  let record := info ("Received prompt: " ++ shown ++ "...") in
  nth_error (st_log (fst (generate_text E request st))) (List.length (st_log st))
  = Some record
  /\ String.length shown = Nat.min 100 (String.length (prompt request))
  /\ prefix shown (prompt request) = true
  /\ (String.length (msg record) <= 120)%nat.
Proof.
  intros shown record. subst shown record.
  destruct (generate_text_cases E request st) as ((rest & Hlog) & _).
  split.
  - rewrite Hlog. rewrite <- (Nat.add_0_r (List.length (st_log st))).
    rewrite nth_error_after. reflexivity.
  - split; [apply length_substring_0|].
    split; [apply prefix_substring_0|].
    cbn [msg info]. change ("Received prompt: " ++ str_take 100 (prompt request) ++ "...")
      with ("Received prompt: " ++ (str_take 100 (prompt request) ++ "...")).
    rewrite !length_append. unfold str_take. rewrite length_substring_0.
    cbn [String.length]. lia.
Qed.

(** ** The start-up probe of the service *)

(** X21. Start-up survives a model runtime that is down or unwell.  When
    the probe raises an exception of [requests]' family, start-up completes
    after two warnings; when the probe is answered with a status other
    than 200, it completes after one warning that names the status, the
    body not being decoded; and a 200 answer whose body does not decode is
    treated like a refused connection. *)
Theorem startup_survives_unavailable_backend (E : env) (P : probe) (st : state) :
  let run := startup_event E P st in
  let could_not (e : exn) :=
    [ warning ("Could not connect to Ollama: " ++ exn_str e);
      warning "Make sure Ollama is running on 192.168.1.13:11434" ] in
  (forall e,
      requests_get P OLLAMA_TAGS_URL = Raise e -> is_RequestException e = true ->
      snd run = Ok tt
      /\ st_log (fst run) = (st_log st ++ startup_records P ++ could_not e)%list)
  /\ (forall resp,
         requests_get P OLLAMA_TAGS_URL = Ok resp -> status_code resp <> 200 ->
         snd run = Ok tt
         /\ st_log (fst run)
            = (st_log st ++ startup_records P
                 ++ [warning ("Ollama responded with status code "
                                ++ str_of_int (status_code resp))])%list)
  /\ (forall resp e,
         requests_get P OLLAMA_TAGS_URL = Ok resp -> status_code resp = 200 ->
         json resp = Raise e -> is_RequestException e = true ->
         snd run = Ok tt
         /\ st_log (fst run) = (st_log st ++ startup_records P ++ could_not e)%list).
Proof.
  intros run could_not. subst run could_not. unfold startup_event, startup_records. run.
  split; [|split].
  - intros e Hg He. rewrite Hg. cbn [dispatch]. rewrite He. run. cbn.
    rewrite <- !app_assoc. split; reflexivity.
  - intros resp Hg Hs. apply Z.eqb_neq in Hs. rewrite Hg, Hs. cbn.
    rewrite <- !app_assoc. split; reflexivity.
  - intros resp e Hg Hs Hj He. rewrite Hg, Hs. cbn [Z.eqb Pos.eqb]. rewrite Hj.
    cbn [dispatch]. rewrite He. run. cbn. rewrite <- !app_assoc. split; reflexivity.
Qed.

Lemma startup_survives_unavailable_backend_witness :
  snd (startup_event sample_env probe_down initial_state) = Ok tt
  /\ List.length (st_log (fst (startup_event sample_env probe_down initial_state)))
     = 4%nat.
Proof.
  destruct (startup_survives_unavailable_backend sample_env probe_down initial_state)
    as (Hdown & _).
  destruct (Hdown connection_refused eq_refl eq_refl) as (Hret & Hlog).
  split; [exact Hret|]. rewrite Hlog. reflexivity.
Defined.

(** X22. Start-up does not survive everything: the hook catches
    [requests]' exceptions only.  An exception of another class raised by
    the probe leaves the hook, and so does the attribute error of a 200
    answer whose JSON body is not an object; in both cases only the two
    start-up records were logged. *)
Theorem startup_fails_on_unexpected_answer (E : env) (P : probe) (st : state) :
  let run := startup_event E P st in
  (forall e,
      requests_get P OLLAMA_TAGS_URL = Raise e -> is_RequestException e = false ->
      snd run = Raise e
      /\ st_log (fst run) = (st_log st ++ startup_records P)%list)
  /\ (forall resp body,
         requests_get P OLLAMA_TAGS_URL = Ok resp -> status_code resp = 200 ->
         json resp = Ok body -> (forall d, body <> PyDict d) ->
         snd run = Raise (attribute_error body "get")
         /\ st_log (fst run) = (st_log st ++ startup_records P)%list).
Proof.
  intros run. subst run. unfold startup_event, startup_records. run.
  split.
  - intros e Hg He. rewrite Hg. cbn [dispatch]. rewrite He. cbn.
    rewrite <- !app_assoc. split; reflexivity.
  - intros resp body Hg Hs Hj Hb. rewrite Hg, Hs. cbn [Z.eqb Pos.eqb]. rewrite Hj.
    destruct body; try (exfalso; eapply Hb; reflexivity);
      cbn; rewrite <- !app_assoc; split; reflexivity.
Qed.

Lemma startup_fails_on_unexpected_answer_witness :
  snd (startup_event sample_env probe_array initial_state)
  = Raise (attribute_error (PyList []) "get").
Proof.
  destruct (startup_fails_on_unexpected_answer sample_env probe_array initial_state)
    as (_ & Harray).
  assert (Hb : forall d, PyList [] <> PyDict d) by discriminate.
  destruct (Harray {| status_code := 200; text := "[]"; json := Ok (PyList []) |}
                   (PyList []) eq_refl eq_refl eq_refl Hb) as (Hret & _).
  exact Hret.
Defined.

Lemma comprehension_names (ms : list dict) :
  comprehension (fun m => py_get m "name" PyNone) (map PyDict ms)
  = Ok (map (fun m => match lookup "name" m with Some x => x | None => PyNone end) ms).
Proof.
  induction ms as [|m ms IH]; [reflexivity|].
  cbn [map comprehension py_get]. rewrite IH. reflexivity.
Qed.

(** X23. When the runtime answers the probe with 200 and an object,
    start-up logs the models it lists: one name per listed model, in
    order, [None] standing for a model without a name, and the empty list
    when the object has no [models] at all. *)
Theorem startup_lists_models
        (E : env) (P : probe) (st : state) (resp : response) (body : dict) :
  requests_get P OLLAMA_TAGS_URL = Ok resp ->
  status_code resp = 200 ->
  json resp = Ok (PyDict body) ->
  let run := startup_event E P st in
  let connected (names : list value) :=
    info ("Connected to Ollama. Available models: " ++ py_repr E (PyList names)) in
  (forall ms,
      lookup "models" body = Some (PyList (map PyDict ms)) ->
      snd run = Ok tt
      /\ st_log (fst run)
         = (st_log st ++ startup_records P
              ++ [connected (map (fun m => match lookup "name" m with
                                           | Some x => x
                                           | None => PyNone
                                           end) ms)])%list)
  /\ (lookup "models" body = None ->
      snd run = Ok tt
      /\ st_log (fst run) = (st_log st ++ startup_records P ++ [connected []])%list).
Proof.
  intros Hg Hs Hj run connected. subst run connected.
  unfold startup_event, startup_records. run.
  rewrite Hg, Hs. cbn [Z.eqb Pos.eqb]. rewrite Hj. cbn [py_get].
  split.
  - intros ms Hm. rewrite Hm. unfold model_names. cbn [py_iter].
    rewrite comprehension_names. cbn. rewrite <- !app_assoc. split; reflexivity.
  - intros Hm. rewrite Hm. cbn. rewrite <- !app_assoc. split; reflexivity.
Qed.

Lemma startup_lists_models_witness :
  snd (startup_event sample_env probe_up initial_state) = Ok tt
  /\ nth_error (st_log (fst (startup_event sample_env probe_up initial_state))) 2
     = Some (info ("Connected to Ollama. Available models: "
                     ++ py_repr sample_env (PyList [PyStr "llama2:latest"; PyNone]))).
Proof.
  destruct (startup_lists_models
              sample_env probe_up initial_state tags_reply
              [("models", PyList [PyDict [("name", PyStr "llama2:latest")];
                                  PyDict [("size", PyInt 3)]])]
              eq_refl eq_refl eq_refl) as (Hlist & _).
  destruct (Hlist [[("name", PyStr "llama2:latest")]; [("size", PyInt 3)]] eq_refl)
    as (Hret & Hlog).
  split; [exact Hret|]. rewrite Hlog. reflexivity.
Defined.
